(** * Signer and witness builder of the decoding exercises

    A shallow embedding of [exercises/ex3_signatures/solution.py] and
    [exercises/ex4_witness_data/solution.py], together with the parts of
    the [ecdsa] package, of [hashlib] and of [hmac] that the two files call.

    Python values are modelled as follows.
    - An [int] is a [Z]; a [bytes] object is a [list byte].
    - A call returns a [result]: a value ([Ok]), an exception ([Raise]),
      or [OutOfBudget] for a [while True] loop that was cut short.  Every
      [while True] loop is a [Fixpoint] over a number of passes; the
      functions that contain one take that number as [budget].  No
      property below assumes that the budget is large.
    - The only state outside the arguments that the called code can read
      is the random source of the process: [SigningKey.sign_number] draws
      from it when it is given no [k].  It is passed along as [randrange].
    - The one allocation whose size a caller chooses is that of
      [int.to_bytes]; what the allocator grants is passed along as
      [memory].
    - The field arithmetic of the curve runs on [bigZ] numbers, so that a
      signature can be evaluated; everything else is in [Z]. *)

From Bignums Require Import BigZ.
From Stdlib Require Import ZArith List Lia Bool.
From Stdlib Require Import Strings.Byte.
Import ListNotations.
Local Open Scope Z_scope.

(** ** Python run-time values *)

Module Py.

(** The exceptions that the modelled code can raise. *)
Inductive exn : Set :=
| OverflowError        (* int.to_bytes out of range *)
| ValueError           (* bytes([n]) out of range, int('', 16), pow(a, -1, m) *)
| TypeError            (* arithmetic on None *)
| AssertionError       (* a failed assert *)
| MalformedPointError  (* ecdsa.keys *)
| BadDigestError       (* ecdsa.keys *)
| RSZeroError          (* ecdsa.ecdsa *)
| UnexpectedDER        (* ecdsa.der *)
| MemoryError.         (* a bytes object that cannot be allocated *)

(** Outcome of a call: a value, an exception, or a loop that used up its
    iteration budget. *)
Inductive result (A : Type) : Type :=
| Ok (a : A)
| Raise (e : exn)
| OutOfBudget.

Arguments Ok {A} a.
Arguments Raise {A} e.
Arguments OutOfBudget {A}.

Definition bind {A B : Type} (m : result A) (f : A -> result B) : result B :=
  match m with
  | Ok a => f a
  | Raise e => Raise e
  | OutOfBudget => OutOfBudget
  end.

(** [assert cond] *)
Definition assert (cond : bool) : result unit :=
  if cond then Ok tt else Raise AssertionError.

Definition bytes : Set := list byte.

Definition byte_to_Z (b : byte) : Z := Z.of_N (Byte.to_N b).

(** The byte of value [z mod 256]. *)
Definition byte_of_Z (z : Z) : byte :=
  match Byte.of_N (Z.to_N (z mod 256)) with
  | Some b => b
  | None => x00
  end.

(** [len(b)] *)
Definition len {A : Type} (l : list A) : Z := Z.of_nat (length l).

(** [bytes([n])]: one byte, [ValueError] unless [0 <= n < 256]. *)
Definition bytes_of_int (n : Z) : result bytes :=
  if (0 <=? n) && (n <? 256) then Ok [byte_of_Z n] else Raise ValueError.

(** [n] base-256 digits of [v], least significant first. *)
Fixpoint le_digits (n : nat) (v : Z) : bytes :=
  match n with
  | O => []
  | S n' => byte_of_Z (v mod 256) :: le_digits n' (v / 256)
  end.

Inductive byteorder : Set := little | big.

(** The largest C [ssize_t] of a 64-bit build, and the largest size of a
    [bytes] object there: the object header and the closing zero byte
    take 33 bytes. *)
Definition ssize_t_max : Z := 2 ^ 63 - 1.
Definition bytes_size_max : Z := ssize_t_max - 33.

(** [value.to_bytes(length, byteorder)] for an unsigned conversion, in the
    order in which CPython makes its checks: [length] is read as a C
    [ssize_t] and must not be negative, the result is allocated, then the
    digits are written.  [memory] is the size of the largest object that
    the allocator grants at the time of the call. *)
Definition to_bytes (memory value length : Z) (order : byteorder) : result bytes :=
  if (length <? - ssize_t_max - 1) || (ssize_t_max <? length) then Raise OverflowError
  else if length <? 0 then Raise ValueError
  else if bytes_size_max <? length then Raise OverflowError
  else if memory <? length then Raise MemoryError
  else if value <? 0 then Raise OverflowError
  else if 256 ^ length <=? value then Raise OverflowError
  else
    let digits := le_digits (Z.to_nat length) value in
    Ok (match order with little => digits | big => rev digits end).

(** [int.from_bytes(b, 'little')] *)
Fixpoint from_bytes_little (b : bytes) : Z :=
  match b with
  | [] => 0
  | d :: b' => byte_to_Z d + 256 * from_bytes_little b'
  end.

(** [int(binascii.hexlify(b), 16)] for a non-empty [b]: the big-endian
    value of the bytes. *)
Definition from_bytes_big (b : bytes) : Z :=
  fold_left (fun acc d => acc * 256 + byte_to_Z d) b 0.

(** [b[:n]] and [b[n:]] for [0 <= n]. *)
Definition slice_to {A : Type} (n : Z) (b : list A) : list A := firstn (Z.to_nat n) b.
Definition slice_from {A : Type} (n : Z) (b : list A) : list A := skipn (Z.to_nat n) b.

(** [n.bit_length()] for [0 <= n]. *)
Definition bit_length (n : Z) : Z :=
  if n <=? 0 then 0 else Z.log2 n + 1.

End Py.

Import Py.

Declare Scope py_scope.
Delimit Scope py_scope with py.
Notation "x <- m ;; k" := (bind m (fun x => k))
  (at level 61, m at next level, right associativity) : py_scope.
Notation "' pat <- m ;; k" := (bind m (fun x => match x with pat => k end))
  (at level 61, pat pattern, m at next level, right associativity) : py_scope.
Local Open Scope py_scope.

(** ** [hashlib.sha256] and [hmac] *)

Module Hashlib.

Definition mask32 : Z := 0xFFFFFFFF.
Definition add32 (x y : Z) : Z := Z.land (x + y) mask32.
Definition rotr (n x : Z) : Z :=
  Z.lor (Z.shiftr x n) (Z.land (Z.shiftl x (32 - n)) mask32).
Definition not32 (x : Z) : Z := Z.lxor x mask32.

Definition Ch (x y z : Z) : Z := Z.lxor (Z.land x y) (Z.land (not32 x) z).
Definition Maj (x y z : Z) : Z :=
  Z.lxor (Z.lxor (Z.land x y) (Z.land x z)) (Z.land y z).
Definition Sigma0 (x : Z) : Z := Z.lxor (Z.lxor (rotr 2 x) (rotr 13 x)) (rotr 22 x).
Definition Sigma1 (x : Z) : Z := Z.lxor (Z.lxor (rotr 6 x) (rotr 11 x)) (rotr 25 x).
Definition sigma0 (x : Z) : Z := Z.lxor (Z.lxor (rotr 7 x) (rotr 18 x)) (Z.shiftr x 3).
Definition sigma1 (x : Z) : Z := Z.lxor (Z.lxor (rotr 17 x) (rotr 19 x)) (Z.shiftr x 10).

(** The constants of the standard are taken from its definition: the
    round constants are the first 32 bits of the fractional parts of the
    cube roots of the first 64 primes, the initial hash value those of the
    square roots of the first 8. *)
Definition is_prime (p : Z) : bool :=
  forallb (fun d => negb (p mod d =? 0)) (map Z.of_nat (seq 2 (Z.to_nat p - 2))).

Definition primes (n : nat) : list Z :=
  firstn n (filter is_prime (map Z.of_nat (seq 2 400))).

(** The integer cube root of [x], found one binary digit at a time below
    bit [n]. *)
Fixpoint cbrt (n : nat) (x r : Z) : Z :=
  match n with
  | O => r
  | S n' =>
      let r' := r + 2 ^ Z.of_nat n' in
      if r' * r' * r' <=? x then cbrt n' x r' else cbrt n' x r
  end.

Definition K : list Z :=
  Eval vm_compute in
    map (fun p => Z.land (cbrt 36 (p * 2 ^ 96) 0) mask32) (primes 64).

Definition H0 : list Z :=
  Eval vm_compute in
    map (fun p => Z.land (Z.sqrt (p * 2 ^ 64)) mask32) (primes 8).

(** Message padding: a [0x80] byte, zero bytes up to 56 modulo 64, and the
    bit length of the message as a 64-bit big-endian integer. *)
Definition pad (msg : bytes) : bytes :=
  let l := len msg in
  let zeros := Z.to_nat ((55 - l) mod 64) in
  msg ++ [x80] ++ repeat x00 zeros ++ rev (le_digits 8 (8 * l)).

(** The sixteen big-endian words of a 64-byte block. *)
Fixpoint words (n : nat) (b : bytes) : list Z :=
  match n with
  | O => []
  | S n' => from_bytes_big (firstn 4 b) :: words n' (skipn 4 b)
  end.

(** The message schedule, most recent word first; [w] holds the words
    computed so far in reverse order. *)
Fixpoint schedule (n : nat) (w : list Z) : list Z :=
  match n with
  | O => w
  | S n' =>
      let x := add32 (add32 (sigma1 (nth 1 w 0)) (nth 6 w 0))
                     (add32 (sigma0 (nth 14 w 0)) (nth 15 w 0)) in
      schedule n' (x :: w)
  end.

Definition round (s : list Z) (kw : Z * Z) : list Z :=
  match s with
  | [a; b; c; d; e; f; g; h] =>
      let t1 := add32 (add32 (add32 h (Sigma1 e)) (add32 (Ch e f g) (fst kw))) (snd kw) in
      let t2 := add32 (Sigma0 a) (Maj a b c) in
      [add32 t1 t2; a; b; c; add32 d t1; e; f; g]
  | _ => s
  end.

Definition compress (h : list Z) (block : bytes) : list Z :=
  let w := rev (schedule 48 (rev (words 16 block))) in
  let s := fold_left round (combine K w) h in
  map (fun p => add32 (fst p) (snd p)) (combine h s).

Fixpoint blocks (n : nat) (h : list Z) (b : bytes) : list Z :=
  match n with
  | O => h
  | S n' => blocks n' (compress h (firstn 64 b)) (skipn 64 b)
  end.

(** [hashlib.sha256(msg).digest()] *)
Definition sha256_digest (msg : bytes) : bytes :=
  let p := pad msg in
  flat_map (fun w => rev (le_digits 4 w)) (blocks (length p / 64) H0 p).

End Hashlib.

Record hashfunc : Type := {
  digest_size : Z;
  block_size : Z;
  digest : bytes -> bytes
}.

(** [hashlib.sha256] *)
Definition sha256 : hashfunc :=
  {| digest_size := 32; block_size := 64; digest := Hashlib.sha256_digest |}.

Module Hmac.

Definition xor_bytes (c : Z) (b : bytes) : bytes :=
  map (fun d => byte_of_Z (Z.lxor (byte_to_Z d) c)) b.

(** [hmac.new(key, msg, hashfunc).digest()] *)
Definition hmac_digest (h : hashfunc) (key msg : bytes) : bytes :=
  let key := if block_size h <? len key then digest h key else key in
  let key := key ++ repeat x00 (Z.to_nat (block_size h - len key)) in
  digest h (xor_bytes 0x5C key ++ digest h (xor_bytes 0x36 key ++ msg)).

End Hmac.

(** ** The [ecdsa] package

    The functions of the package that [sign] and [get_pub_from_priv] reach,
    as of its release 0.19, each under the name it has there. *)

Module Ecdsa.

(** *** [ecdsa.util] and [ecdsa.der]: integers and byte strings *)

(** [len("%x" % n)] for [0 <= n]. *)
Definition hex_len (n : Z) : Z := Z.log2 n / 4 + 1.

(** [binascii.unhexlify] of ["%x" % n] padded with a ["0"] to an even
    number of digits: the shortest big-endian encoding of [n], one byte
    at least. *)
Definition hex_bytes (n : Z) : bytes :=
  rev (le_digits (Z.to_nat ((hex_len n + 1) / 2)) n).

(** [util.orderlen] *)
Definition orderlen (order : Z) : Z := (1 + hex_len order) / 2.

(** [util.string_to_number]: [int(binascii.hexlify(string), 16)]. *)
Definition string_to_number (string : bytes) : result Z :=
  match string with
  | [] => Raise ValueError
  | _ => Ok (from_bytes_big string)
  end.

(** [binascii.unhexlify(("%0" + str(2 * l) + "x") % num)] *)
Definition unhexlify_padded (l num : Z) : result bytes :=
  if num <? 0 then Raise ValueError
  else
    let digits := Z.max (2 * l) (hex_len num) in
    if Z.odd digits then Raise ValueError
    else Ok (rev (le_digits (Z.to_nat (digits / 2)) num)).

(** [util.number_to_string] *)
Definition number_to_string (num order : Z) : result bytes :=
  let l := orderlen order in
  string <- unhexlify_padded l num ;;
  _ <- assert (len string =? l) ;;
  Ok string.

(** [util.number_to_string_crop] *)
Definition number_to_string_crop (num order : Z) : result bytes :=
  let l := orderlen order in
  string <- unhexlify_padded l num ;;
  Ok (slice_to l string).

(** [str_idx_as_int(string, idx)] for an index inside the string. *)
Definition str_idx_as_int (string : bytes) (idx : nat) : Z :=
  byte_to_Z (nth idx string x00).

(** [der.encode_length] *)
Definition encode_length (l : Z) : result bytes :=
  _ <- assert (0 <=? l) ;;
  if l <? 0x80 then bytes_of_int l
  else
    let s := hex_bytes l in
    let llen := len s in
    first <- bytes_of_int (Z.lor 0x80 llen) ;;
    Ok (first ++ s).

(** [der.encode_integer] *)
Definition encode_integer (r : Z) : result bytes :=
  _ <- assert (0 <=? r) ;;
  let s := hex_bytes r in
  let num := str_idx_as_int s 0 in
  if num <=? 0x7F then
    l <- encode_length (len s) ;;
    Ok ([x02] ++ l ++ s)
  else
    l <- encode_length (len s + 1) ;;
    Ok ([x02] ++ l ++ [x00] ++ s).

(** [der.encode_sequence] of two pieces *)
Definition encode_sequence (piece1 piece2 : bytes) : result bytes :=
  let total_len := len piece1 + len piece2 in
  l <- encode_length total_len ;;
  Ok ([x30] ++ l ++ piece1 ++ piece2).

(** [der.read_length]: the length and the number of bytes it took. *)
Definition read_length (string : bytes) : result (Z * Z) :=
  match string with
  | [] => Raise UnexpectedDER
  | _ =>
      let num := str_idx_as_int string 0 in
      if Z.land num 0x80 =? 0 then Ok (Z.land num 0x7F, 1)
      else
        let llen := Z.land num 0x7F in
        if llen =? 0 then Raise UnexpectedDER
        else if len string - 1 <? llen then Raise UnexpectedDER
        else
          let msb := str_idx_as_int string 1 in
          if (msb =? 0) || ((llen =? 1) && (msb <? 0x80)) then Raise UnexpectedDER
          else Ok (from_bytes_big (slice_to llen (slice_from 1 string)), 1 + llen)
  end.

(** [der.remove_sequence]: the body of the sequence and what follows it. *)
Definition remove_sequence (string : bytes) : result (bytes * bytes) :=
  match string with
  | [] => Raise UnexpectedDER
  | first :: _ =>
      if negb (byte_to_Z first =? 0x30) then Raise UnexpectedDER
      else
        '(length, lengthlength) <- read_length (slice_from 1 string) ;;
        if len string - 1 - lengthlength <? length then Raise UnexpectedDER
        else
          let endseq := 1 + lengthlength + length in
          Ok (slice_to length (slice_from (1 + lengthlength) string),
              slice_from endseq string)
  end.

(** [der.remove_integer]: the integer and what follows it. *)
Definition remove_integer (string : bytes) : result (Z * bytes) :=
  match string with
  | [] => Raise UnexpectedDER
  | first :: _ =>
      if negb (byte_to_Z first =? 0x02) then Raise UnexpectedDER
      else
        '(length, llen) <- read_length (slice_from 1 string) ;;
        if len string - 1 - llen <? length then Raise UnexpectedDER
        else if length =? 0 then Raise UnexpectedDER
        else
          let numberbytes := slice_to length (slice_from (1 + llen) string) in
          let rest := slice_from (1 + llen + length) string in
          let msb := str_idx_as_int numberbytes 0 in
          if negb (msb <? 0x80) then Raise UnexpectedDER
          else if (1 <? length) && (msb =? 0)
                  && (str_idx_as_int numberbytes 1 <? 0x80)
          then Raise UnexpectedDER
          else Ok (from_bytes_big numberbytes, rest)
  end.

(** [util.sigencode_der] *)
Definition sigencode_der (r s order : Z) : result bytes :=
  er <- encode_integer r ;;
  es <- encode_integer s ;;
  encode_sequence er es.

(** [util.sigdecode_der] *)
Definition sigdecode_der (sig_der : bytes) (order : Z) : result (Z * Z) :=
  '(rs_strings, empty) <- remove_sequence sig_der ;;
  match empty with
  | _ :: _ => Raise UnexpectedDER
  | [] =>
      '(r, rest) <- remove_integer rs_strings ;;
      '(s, empty) <- remove_integer rest ;;
      match empty with
      | _ :: _ => Raise UnexpectedDER
      | [] => Ok (r, s)
      end
  end.

(** *** [ecdsa.numbertheory] and [ecdsa.ellipticcurve] *)

(** Euclid's algorithm on the remainders [r0], [r1], carrying the
    coefficients [s0], [s1] of the inverted number. *)
Fixpoint egcd (n : nat) (r0 r1 s0 s1 : Z) : Z * Z :=
  match n with
  | O => (r0, s0)
  | S n' =>
      if r1 =? 0 then (r0, s0)
      else
        let q := r0 / r1 in
        egcd n' r1 (r0 - q * r1) s1 (s0 - q * s1)
  end.

(** [numbertheory.inverse_mod]: [0] for [a = 0], otherwise [pow(a, -1, m)],
    which raises [ValueError] when [a] has no inverse. *)
Definition inverse_mod (a m : Z) : result Z :=
  if a =? 0 then Ok 0
  else
    let '(g, x) := egcd (Z.to_nat (2 * Z.log2 m + 4)) (a mod m) m 1 0 in
    if g =? 1 then Ok (x mod m) else Raise ValueError.

(** [curves.Curve]: the field prime, the coefficients of
    [y^2 = x^3 + a*x + b], the generator and its order. *)
Record Curve : Type := {
  curve_p : Z;
  curve_a : Z;
  curve_b : Z;
  generator : Z * Z;
  order : Z
}.

(** [curve.baselen] *)
Definition baselen (c : Curve) : Z := orderlen (order c).

(** [curves.SECP256k1] *)
Definition SECP256k1 : Curve := {|
  curve_p := 0xFFFFFFFFFFFFFFFFFFFFFFFFFFFFFFFFFFFFFFFFFFFFFFFFFFFFFFFEFFFFFC2F;
  curve_a := 0;
  curve_b := 7;
  generator :=
    (0x79BE667EF9DCBBAC55A06295CE870B07029BFCDB2DCE28D959F2815B16F81798,
     0x483ADA7726A3C4655DA4FBFC0E1108A8FD17B448A68554199C47D08FFB10D4B8);
  order := 0xFFFFFFFFFFFFFFFFFFFFFFFFFFFFFFFEBAAEDCE6AF48A03BBFD25E8CD0364141
|}.

(** A point in affine coordinates, as [x()] and [y()] give them. *)
Inductive Point : Set :=
| INFINITY
| Affine (x y : Z).

(** Jacobian coordinates [(X, Y, Z)] stand for [(X / Z^2, Y / Z^3)];
    [Z = 0] is the point at infinity.  The coordinates are [bigZ] numbers,
    trees of machine words, so that the ladder below can be evaluated on
    256-bit multipliers. *)
Definition jacobi : Type := (bigZ * bigZ * bigZ)%type.

Definition jacobi_infinity : jacobi := (0, 0, 0)%bigZ.

Definition jacobi_double (p a : bigZ) (P : jacobi) : jacobi :=
  (let '(X1, Y1, Z1) := P in
   if (Y1 =? 0) || (Z1 =? 0) then jacobi_infinity
   else
     let YY := Y1 * Y1 mod p in
     let S := 4 * X1 * YY mod p in
     let ZZ := Z1 * Z1 mod p in
     let M := (3 * X1 * X1 + a * ZZ * ZZ) mod p in
     let X3 := (M * M - 2 * S) mod p in
     let Y3 := (M * (S - X3) - 8 * YY * YY) mod p in
     let Z3 := 2 * Y1 * Z1 mod p in
     (X3, Y3, Z3))%bigZ.

Definition jacobi_add (p a : bigZ) (P Q : jacobi) : jacobi :=
  (let '(X1, Y1, Z1) := P in
   let '(X2, Y2, Z2) := Q in
   if Z1 =? 0 then Q
   else if Z2 =? 0 then P
   else
     let Z1Z1 := Z1 * Z1 mod p in
     let Z2Z2 := Z2 * Z2 mod p in
     let U1 := X1 * Z2Z2 mod p in
     let U2 := X2 * Z1Z1 mod p in
     let S1 := Y1 * Z2 * Z2Z2 mod p in
     let S2 := Y2 * Z1 * Z1Z1 mod p in
     if U1 =? U2 then
       if S1 =? S2 then jacobi_double p a P else jacobi_infinity
     else
       let H := (U2 - U1) mod p in
       let R := (S2 - S1) mod p in
       let HH := H * H mod p in
       let HHH := H * HH mod p in
       let V := U1 * HH mod p in
       let X3 := (R * R - HHH - 2 * V) mod p in
       let Y3 := (R * (V - X3) - S1 * HHH) mod p in
       let Z3 := H * Z1 * Z2 mod p in
       (X3, Y3, Z3))%bigZ.

(** Double and add over the binary digits of a positive multiplier. *)
Fixpoint jacobi_mul (p a : bigZ) (k : positive) (P : jacobi) : jacobi :=
  match k with
  | xH => P
  | xO k' => jacobi_double p a (jacobi_mul p a k' P)
  | xI k' => jacobi_add p a (jacobi_double p a (jacobi_mul p a k' P)) P
  end.

(** [PointJacobi.scale] followed by [x()] and [y()]. *)
Definition to_affine (c : Curve) (P : jacobi) : result Point :=
  let '(X1, Y1, Z1) := P in
  let p := curve_p c in
  if BigZ.to_Z Z1 mod p =? 0 then Ok INFINITY
  else
    z_inv <- inverse_mod (BigZ.to_Z Z1) p ;;
    let zz := z_inv * z_inv mod p in
    Ok (Affine (BigZ.to_Z X1 * zz mod p) (BigZ.to_Z Y1 * zz * z_inv mod p)).

(** [curve.generator * k].  The package computes the multiple with a
    non-adjacent form ladder; the model takes the binary ladder, which
    yields the same point of the curve. *)
Definition generator_mul (c : Curve) (k : Z) : result Point :=
  match k with
  | Zpos k' =>
      let '(gx, gy) := generator c in
      to_affine c (jacobi_mul (BigZ.of_Z (curve_p c)) (BigZ.of_Z (curve_a c)) k'
                     (BigZ.of_Z gx, BigZ.of_Z gy, 1%bigZ))
  | _ => Ok INFINITY
  end.

(** *** [ecdsa.rfc6979] *)

(** [rfc6979.bits2int] *)
Definition bits2int (data : bytes) (qlen : Z) : result Z :=
  x <- string_to_number data ;;
  let l := len data * 8 in
  if qlen <? l then Ok (Z.shiftr x (l - qlen)) else Ok x.

(** [rfc6979.bits2octets] *)
Definition bits2octets (data : bytes) (order : Z) : result bytes :=
  z1 <- bits2int data (bit_length order) ;;
  let z2 := z1 - order in
  let z2 := if z2 <? 0 then z1 else z2 in
  number_to_string_crop z2 order.

(** Step H2 of [generate_k]: [while len(t) < rolen]. *)
Fixpoint generate_k_h2 (n : nat) (h : hashfunc) (rolen : Z) (k v t : bytes)
  : result (bytes * bytes) :=
  if len t <? rolen then
    match n with
    | O => OutOfBudget
    | S n' =>
        let v := Hmac.hmac_digest h k v in
        generate_k_h2 n' h rolen k v (t ++ v)
    end
  else Ok (v, t).

(** Step H of [generate_k]: [while True]. *)
Fixpoint generate_k_h (budget : nat) (h : hashfunc) (order qlen rolen : Z)
    (k v : bytes) (retry_gen : Z) : result Z :=
  match budget with
  | O => OutOfBudget
  | S budget' =>
      '(v, t) <- generate_k_h2 (Z.to_nat rolen) h rolen k v [] ;;
      secret <- bits2int t qlen ;;
      let in_range := (1 <=? secret) && (secret <? order) in
      if in_range && (retry_gen <=? 0) then Ok secret
      else
        let retry_gen := if in_range then retry_gen - 1 else retry_gen in
        let k := Hmac.hmac_digest h k (v ++ [x00]) in
        let v := Hmac.hmac_digest h k v in
        generate_k_h budget' h order qlen rolen k v retry_gen
  end.

(** [rfc6979.generate_k] *)
Definition generate_k (budget : nat) (order secexp : Z) (hash_func : hashfunc)
    (data : bytes) (retry_gen : Z) (extra_entropy : bytes) : result Z :=
  let qlen := bit_length order in
  let holen := digest_size hash_func in
  let rolen := (qlen + 7) / 8 in
  bx0 <- number_to_string secexp order ;;
  bx1 <- bits2octets data order ;;
  let bx := bx0 ++ bx1 ++ extra_entropy in
  let v := repeat x01 (Z.to_nat holen) in
  let k := repeat x00 (Z.to_nat holen) in
  let k := Hmac.hmac_digest hash_func k (v ++ [x00] ++ bx) in
  let v := Hmac.hmac_digest hash_func k v in
  let k := Hmac.hmac_digest hash_func k (v ++ [x01] ++ bx) in
  let v := Hmac.hmac_digest hash_func k v in
  generate_k_h budget hash_func order qlen rolen k v retry_gen.

(** *** [ecdsa.ecdsa] and [ecdsa.keys] *)

(** [ecdsa.Private_key.sign] *)
Definition Private_key_sign (c : Curve) (secret_multiplier hash random_k : Z)
  : result (Z * Z) :=
  let n := order c in
  let k := random_k mod n in
  let ks := k + n in
  let kt := ks + n in
  p1 <- (if bit_length ks =? bit_length n
         then generator_mul c kt else generator_mul c ks) ;;
  match p1 with
  | INFINITY => Raise TypeError
  | Affine x _ =>
      let r := x mod n in
      if r =? 0 then Raise RSZeroError
      else
        k_inv <- inverse_mod k n ;;
        let s := (k_inv * (hash + (secret_multiplier * r) mod n)) mod n in
        if s =? 0 then Raise RSZeroError else Ok (r, s)
  end.

(** [keys.SigningKey]: the curve, the secret exponent and the public
    point computed when the key is built. *)
Record SigningKey : Type := {
  sk_curve : Curve;
  sk_secexp : Z;
  verifying_key : Point
}.

(** [SigningKey.from_secret_exponent] *)
Definition from_secret_exponent (secexp : Z) (curve : Curve) : result SigningKey :=
  let n := order curve in
  if negb ((1 <=? secexp) && (secexp <? n)) then Raise MalformedPointError
  else
    pubkey_point <- generator_mul curve secexp ;;
    Ok {| sk_curve := curve; sk_secexp := secexp; verifying_key := pubkey_point |}.

(** [SigningKey.from_string] *)
Definition from_string (string : bytes) (curve : Curve) : result SigningKey :=
  if negb (len string =? baselen curve) then Raise MalformedPointError
  else
    secexp <- string_to_number string ;;
    from_secret_exponent secexp curve.

(** [keys._truncate_and_convert_digest] *)
Definition truncate_and_convert_digest (digest : bytes) (curve : Curve)
    (allow_truncate : bool) : result Z :=
  digest <- (if negb allow_truncate then
               if baselen curve <? len digest then Raise BadDigestError
               else Ok digest
             else Ok (slice_to (baselen curve) digest)) ;;
  number <- string_to_number digest ;;
  if allow_truncate then
    let max_length := bit_length (order curve) in
    let length := len digest * 8 in
    Ok (Z.shiftr number (Z.max 0 (length - max_length)))
  else Ok number.

(** [SigningKey.sign_number].  [randrange] stands for the draw that
    [util.randrange(order)] makes from [os.urandom] when no [k] is given. *)
Definition sign_number (randrange : Z -> Z) (sk : SigningKey) (number : Z)
    (k : option Z) : result (Z * Z) :=
  let order := order (sk_curve sk) in
  let _k := match k with Some k => k | None => randrange order end in
  _ <- assert ((1 <=? _k) && (_k <? order)) ;;
  Private_key_sign (sk_curve sk) (sk_secexp sk) number _k.

(** [SigningKey.sign_digest] *)
Definition sign_digest {A : Type} (randrange : Z -> Z) (sk : SigningKey)
    (digest : bytes) (sigencode : Z -> Z -> Z -> result A) (k : option Z)
    (allow_truncate : bool) : result A :=
  number <- truncate_and_convert_digest digest (sk_curve sk) allow_truncate ;;
  '(r, s) <- sign_number randrange sk number k ;;
  sigencode r s (order (sk_curve sk)).

Definition simple_r_s (r s order : Z) : result (Z * Z * Z) := Ok (r, s, order).

(** The [while True] loop of [sign_digest_deterministic]: a new [k] is
    generated as long as signing raises [RSZeroError]. *)
Fixpoint sign_digest_retry (n budget : nat) (randrange : Z -> Z) (sk : SigningKey)
    (digest : bytes) (hashfunc : hashfunc) (retry_gen : Z) : result (Z * Z * Z) :=
  match n with
  | O => OutOfBudget
  | S n' =>
      k <- generate_k budget (order (sk_curve sk)) (sk_secexp sk) hashfunc
             digest retry_gen [] ;;
      match sign_digest randrange sk digest simple_r_s (Some k) false with
      | Raise RSZeroError =>
          sign_digest_retry n' budget randrange sk digest hashfunc (retry_gen + 1)
      | outcome => outcome
      end
  end.

(** [SigningKey.sign_digest_deterministic] *)
Definition sign_digest_deterministic {A : Type} (budget : nat)
    (randrange : Z -> Z) (sk : SigningKey) (digest : bytes)
    (hashfunc : hashfunc) (sigencode : Z -> Z -> Z -> result A) : result A :=
  '(r, s, order) <- sign_digest_retry budget budget randrange sk digest hashfunc 0 ;;
  sigencode r s order.

(** [VerifyingKey.to_string("compressed")] *)
Definition to_string_compressed (curve : Curve) (vk : Point) : result bytes :=
  match vk with
  | INFINITY => Raise TypeError
  | Affine x y =>
      x_str <- number_to_string x (curve_p curve) ;;
      if Z.land y 1 =? 0 then Ok ([x02] ++ x_str) else Ok ([x03] ++ x_str)
  end.

End Ecdsa.

(** ** [exercises/ex3_signatures/solution.py] *)

Module Ex3Signatures.

Import Ecdsa.

(** [int_to_little_endian] *)
Definition int_to_little_endian (memory value length : Z) : result bytes :=
  to_bytes memory value length little.

(** [dsha256] *)
Definition dsha256 (data : bytes) : bytes :=
  digest sha256 (digest sha256 data).

(** One pass through the body of the [while True] loop of [sign]: the
    value of [signature_with_sighash] and whether the final [if] breaks
    out of the loop. *)
Definition sign_body (budget : nat) (randrange : Z -> Z) (sk : SigningKey)
    (commitment : bytes) : result (bytes * bool) :=
  signature_der <- sign_digest_deterministic budget randrange sk commitment
                     sha256 sigencode_der ;;
  '(r, s) <- sigdecode_der signature_der (order SECP256k1) ;;
  '(s, signature_der) <-
     (if order SECP256k1 / 2 <? s then
        let s := order SECP256k1 - s in
        signature_der <- sigencode_der r s (order SECP256k1) ;;
        Ok (s, signature_der)
      else Ok (s, signature_der)) ;;
  let signature_with_sighash := signature_der ++ [x01] in
  Ok (signature_with_sighash, s <=? order SECP256k1 / 2).

(** The [while True] loop of [sign], for at most [n] passes. *)
Fixpoint sign_loop (n budget : nat) (randrange : Z -> Z) (sk : SigningKey)
    (commitment : bytes) : result bytes :=
  match n with
  | O => OutOfBudget
  | S n' =>
      '(signature_with_sighash, exit) <- sign_body budget randrange sk commitment ;;
      if exit then Ok signature_with_sighash
      else sign_loop n' budget randrange sk commitment
  end.

(** [sign] *)
Definition sign (budget : nat) (randrange : Z -> Z)
    (private_key commitment : bytes) : result bytes :=
  sk <- from_string private_key SECP256k1 ;;
  sign_loop budget budget randrange sk commitment.

End Ex3Signatures.

(** ** [exercises/ex4_witness_data/solution.py] *)

Module Ex4WitnessData.

Import Ecdsa.

(** [int_to_little_endian] *)
Definition int_to_little_endian (memory value length : Z) : result bytes :=
  to_bytes memory value length little.

(** [dsha256] *)
Definition dsha256 (data : bytes) : bytes :=
  digest sha256 (digest sha256 data).

(** One pass through the body of the [while True] loop of [sign]: the
    value of [signature_with_sighash] and whether the final [if] breaks
    out of the loop. *)
Definition sign_body (budget : nat) (randrange : Z -> Z) (sk : SigningKey)
    (commitment : bytes) : result (bytes * bool) :=
  signature_der <- sign_digest_deterministic budget randrange sk commitment
                     sha256 sigencode_der ;;
  '(r, s) <- sigdecode_der signature_der (order SECP256k1) ;;
  '(s, signature_der) <-
     (if order SECP256k1 / 2 <? s then
        let s := order SECP256k1 - s in
        signature_der <- sigencode_der r s (order SECP256k1) ;;
        Ok (s, signature_der)
      else Ok (s, signature_der)) ;;
  let signature_with_sighash := signature_der ++ [x01] in
  Ok (signature_with_sighash, s <=? order SECP256k1 / 2).

(** The [while True] loop of [sign], for at most [n] passes. *)
Fixpoint sign_loop (n budget : nat) (randrange : Z -> Z) (sk : SigningKey)
    (commitment : bytes) : result bytes :=
  match n with
  | O => OutOfBudget
  | S n' =>
      '(signature_with_sighash, exit) <- sign_body budget randrange sk commitment ;;
      if exit then Ok signature_with_sighash
      else sign_loop n' budget randrange sk commitment
  end.

(** [sign] *)
Definition sign (budget : nat) (randrange : Z -> Z)
    (private_key commitment : bytes) : result bytes :=
  sk <- from_string private_key SECP256k1 ;;
  sign_loop budget budget randrange sk commitment.

(** [get_pub_from_priv] *)
Definition get_pub_from_priv (priv : bytes) : result bytes :=
  sk <- from_string priv SECP256k1 ;;
  let vk := verifying_key sk in
  compressed_pubkey <- to_string_compressed (sk_curve sk) vk ;;
  Ok compressed_pubkey.

(** [get_p2wpkh_witness] *)
Definition get_p2wpkh_witness (budget : nat) (randrange : Z -> Z)
    (priv msg : bytes) : result bytes :=
  signature_with_sighash <- sign budget randrange priv msg ;;
  compressed_public_key <- get_pub_from_priv priv ;;
  num_witness_items <- bytes_of_int 2 ;;
  sig_len <- bytes_of_int (len signature_with_sighash) ;;
  let serialized_sig := sig_len ++ signature_with_sighash in
  pk_len <- bytes_of_int (len compressed_public_key) ;;
  let serialized_pk := pk_len ++ compressed_public_key in
  let serialized_witness := num_witness_items ++ serialized_sig ++ serialized_pk in
  Ok serialized_witness.

End Ex4WitnessData.

(** ** Test vectors *)

Module Vectors.

Import Ecdsa.

(** The private key [0x00...01]. *)
Definition key_one : bytes := repeat x00 31 ++ [x01].

(** [dsha256(b"test")] *)
Definition commitment_test : bytes :=
  Ex3Signatures.dsha256 [x74; x65; x73; x74].

(** [hashlib.sha256(b"Satoshi Nakamoto").digest()] *)
Definition commitment_satoshi : bytes :=
  digest sha256 [x53; x61; x74; x6f; x73; x68; x69; x20;
                 x4e; x61; x6b; x61; x6d; x6f; x74; x6f].

(** The first 31 bytes of [commitment_test], and [commitment_test] with
    one more byte. *)
Definition commitment_31 : bytes := firstn 31 commitment_test.
Definition commitment_33 : bytes := commitment_test ++ [x00].

(** A key of 31 bytes. *)
Definition key_31 : bytes := repeat x01 31.

(** The private key [0x0101...01]; its public point; the signature that
    the package returns for it and [commitment_test], before [sign]
    corrects its [s]; its compressed public key. *)
Definition key_ones : bytes := repeat x01 32.
Definition point_ones_x : Z :=
  0x1B84C5567B126440995D3ED5AABA0565D71E1834604819FF9C17F5E9D5DD078F.
Definition point_ones_y : Z :=
  0x70BEAF8F588B541507FED6A642C5AB42DFDF8120A7F639DE5122D47A69A8E8D1.
Definition raw_r_ones : Z :=
  0x7F0B1F13D3450F24A4CDACC7057BDBD2058DCA12817CF12BFFC69F6264503B31.
Definition raw_s_ones : Z :=
  0xA9D6C27B3938AD290978D587E50FBF3B3F4EFA7D76F052252BA6FD5379D7FF73.
Definition pubkey_ones : bytes :=
  x03 :: rev (le_digits 32 point_ones_x).

(** The nonce of RFC 6979 for [key_one] and [commitment_33]. *)
Definition nonce_33 : Z :=
  0xE673FF92066F5F9F70F589B2942628FD4B9FBCD815A00FD20A96A4A2CD5BA82C.

(** The signing key that [SigningKey.from_string] builds from [key_one]. *)
Definition sk_one : SigningKey :=
  {| sk_curve := SECP256k1; sk_secexp := 1;
     verifying_key := Affine (fst (generator SECP256k1)) (snd (generator SECP256k1)) |}.

(** Two random sources that differ everywhere. *)
Definition entropy_zero : Z -> Z := fun _ => 0.
Definition entropy_top : Z -> Z := fun order => order - 1.

Definition blob_test : bytes :=
  [x30; x44; x02; x20; x05; xbf; x5e; x9c; x53; x28; x18; x1f;
   x20; xa0; x63; x60; x79; x8d; xe7; x6c; xff; x31; x49; xda;
   xa9; xd0; x4a; x67; xf7; x42; xad; x8e; x83; xf2; xb4; x67;
   x02; x20; x6f; x8e; x87; xac; xe7; x6a; xd7; x38; xf7; x8b;
   x57; x56; x2d; xd5; xb4; xe0; x72; xbe; xe2; x61; xdb; x18;
   xd5; x46; x97; xf3; x76; xd7; x7c; x45; x27; xb3; x01].

Definition blob_satoshi : bytes :=
  [x30; x45; x02; x21; x00; x93; x4b; x1e; xa1; x0a; x4b; x3c;
   x17; x57; xe2; xb0; xc0; x17; xd0; xb6; x14; x3c; xe3; xc9;
   xa7; xe6; xa4; xa4; x98; x60; xd7; xa6; xab; x21; x0e; xe3;
   xd8; x02; x20; x24; x42; xce; x9d; x2b; x91; x60; x64; x10;
   x80; x14; x78; x3e; x92; x3e; xc3; x6b; x49; x74; x3e; x2f;
   xfa; x1c; x44; x96; xf0; x1a; x51; x2a; xaf; xd9; xe5; x01].

Definition blob_31 : bytes :=
  [x30; x45; x02; x21; x00; x97; x42; xd0; xa3; xf8; x2c; x75;
   xb3; x99; x19; xa8; x84; x9b; x3e; x39; xb0; x53; x3f; xe9;
   x39; xbc; xcf; xd4; x52; xac; xbb; x04; x4e; x60; xbd; x66;
   xc3; x02; x20; x13; x95; xfa; xc4; x9a; x6e; x0e; xa6; x8c;
   xac; x24; xd2; x13; xda; x42; x7d; xde; x88; x55; xf6; x53;
   x56; xb3; xb7; xc7; xe6; xcd; x6f; xbc; x2a; xcc; x63; x01].

(** The compressed encoding of the generator of the curve. *)
Definition pubkey_one : bytes :=
  [x02; x79; xbe; x66; x7e; xf9; xdc; xbb; xac; x55; xa0; x62;
   x95; xce; x87; x0b; x07; x02; x9b; xfc; xdb; x2d; xce; x28;
   xd9; x59; xf2; x81; x5b; x16; xf8; x17; x98].

(** The signature that the package returns for [key_one] and
    [commitment_satoshi], before [sign] corrects its [s]. *)
Definition raw_r_satoshi : Z :=
  0x934B1EA10A4B3C1757E2B0C017D0B6143CE3C9A7E6A4A49860D7A6AB210EE3D8.
Definition raw_s_satoshi : Z :=
  0xDBBD3162D46E9F9BEF7FEB87C16DC13B4F6568A87F4E83F728E2443BA586675C.

End Vectors.

(** ** Vocabulary of the properties *)

Module Spec.

Import Ecdsa.

(** A private key that the specification calls valid: 32 bytes, read as a
    big-endian number between 1 and the order of the curve minus 1. *)
Definition valid_private_key (private_key : bytes) : Prop :=
  len private_key = 32 /\ 1 <= from_bytes_big private_key < order SECP256k1.

(** The key object that [SigningKey.from_string] builds from the bytes
    [private_key] when the curve arithmetic gives [(x, y)] for the public
    point. *)
Definition signing_key (private_key : bytes) (x y : Z) : SigningKey :=
  {| sk_curve := SECP256k1;
     sk_secexp := from_bytes_big private_key;
     verifying_key := Affine x y |}.

(** [s] after the correction of [sign]: [order - s] when [s] is above half
    the order. *)
Definition low_s (s : Z) : Z :=
  if order SECP256k1 / 2 <? s then order SECP256k1 - s else s.

(** The first byte of [hex_bytes r], as a number. *)
Definition leading (r : Z) : Z := r / 256 ^ (Z.log2 r / 8).

(** The content bytes of the DER integer [r]: a zero byte goes first when
    the leading byte has its high bit set. *)
Definition integer_body (r : Z) : bytes :=
  if leading r <=? 0x7F then hex_bytes r else x00 :: hex_bytes r.

(** Two outcomes agree when they are equal or one of them is a run that
    used up its budget. *)
Definition agree {A : Type} (x y : result A) : Prop :=
  x = OutOfBudget \/ y = OutOfBudget \/ x = y.

End Spec.

(** * Properties *)

Import Ecdsa.
Import Spec.

(** ** Bytes and integers *)

Section Bytes.

Lemma byte_to_Z_range (b : byte) : 0 <= byte_to_Z b < 256.
Proof.
  unfold byte_to_Z. pose proof (Byte.to_N_bounded b). lia.
Qed.

Lemma byte_of_to (b : byte) : byte_of_Z (byte_to_Z b) = b.
Proof.
  unfold byte_of_Z. pose proof (byte_to_Z_range b) as Hb.
  rewrite Z.mod_small by exact Hb.
  unfold byte_to_Z. rewrite N2Z.id, Byte.of_to_N. reflexivity.
Qed.

Lemma byte_to_of (z : Z) : byte_to_Z (byte_of_Z z) = z mod 256.
Proof.
  unfold byte_of_Z, byte_to_Z.
  pose proof (Z.mod_pos_bound z 256 ltac:(lia)) as Hz.
  destruct (Byte.of_N (Z.to_N (z mod 256))) as [b|] eqn:E.
  - apply Byte.to_of_N in E. rewrite E. lia.
  - apply Byte.of_N_None_iff in E. lia.
Qed.

Lemma byte_to_of_small (z : Z) : 0 <= z < 256 -> byte_to_Z (byte_of_Z z) = z.
Proof. intros Hz. rewrite byte_to_of. apply Z.mod_small, Hz. Qed.

Lemma len_nonneg {A : Type} (l : list A) : 0 <= len l.
Proof. unfold len. lia. Qed.

Lemma len_app {A : Type} (l1 l2 : list A) : len (l1 ++ l2) = len l1 + len l2.
Proof. unfold len. rewrite length_app. lia. Qed.

Lemma len_cons {A : Type} (a : A) (l : list A) : len (a :: l) = 1 + len l.
Proof. unfold len. simpl length. lia. Qed.

Lemma len_rev {A : Type} (l : list A) : len (rev l) = len l.
Proof. unfold len. rewrite length_rev. reflexivity. Qed.

Lemma le_digits_length (n : nat) (v : Z) : length (le_digits n v) = n.
Proof.
  revert v. induction n as [|n IH]; intros v; simpl.
  - reflexivity.
  - rewrite IH. reflexivity.
Qed.

Lemma from_bytes_little_le_digits (n : nat) (v : Z) :
  from_bytes_little (le_digits n v) = v mod 256 ^ Z.of_nat n.
Proof.
  revert v. induction n as [|n IH]; intros v.
  - simpl. rewrite Z.mod_1_r. reflexivity.
  - cbn [le_digits from_bytes_little]. rewrite IH, byte_to_of, Z.mod_mod by lia.
    rewrite Nat2Z.inj_succ, Z.pow_succ_r by lia.
    rewrite Z.rem_mul_r by lia. reflexivity.
Qed.

Lemma from_bytes_big_app (l1 l2 : bytes) :
  from_bytes_big (l1 ++ l2) = from_bytes_big l1 * 256 ^ len l2 + from_bytes_big l2.
Proof.
  unfold from_bytes_big. rewrite fold_left_app.
  generalize (fold_left (fun acc d => acc * 256 + byte_to_Z d) l1 0) as a.
  induction l2 as [|d l2 IH]; intros a.
  - simpl. unfold len. simpl. lia.
  - cbn [fold_left]. rewrite IH, (IH (0 * 256 + byte_to_Z d)), len_cons.
    rewrite Z.pow_add_r by (pose proof (len_nonneg l2); lia). lia.
Qed.

Lemma from_bytes_big_rev (l : bytes) : from_bytes_big (rev l) = from_bytes_little l.
Proof.
  induction l as [|d l IH].
  - reflexivity.
  - cbn [rev from_bytes_little]. rewrite from_bytes_big_app, IH.
    change (len [d]) with 1. change (from_bytes_big [d]) with (0 * 256 + byte_to_Z d).
    lia.
Qed.

Lemma from_bytes_big_digits (n : nat) (v : Z) :
  0 <= v < 256 ^ Z.of_nat n -> from_bytes_big (rev (le_digits n v)) = v.
Proof.
  intros Hv. rewrite from_bytes_big_rev, from_bytes_little_le_digits.
  apply Z.mod_small, Hv.
Qed.

Lemma le_digits_snoc (n : nat) (v : Z) :
  le_digits (S n) v = le_digits n v ++ [byte_of_Z (v / 256 ^ Z.of_nat n)].
Proof.
  revert v. induction n as [|n IH]; intros v.
  - cbn. rewrite Z.div_1_r. unfold byte_of_Z. rewrite Z.mod_mod by lia. reflexivity.
  - change (le_digits (S (S n)) v)
      with (byte_of_Z (v mod 256) :: le_digits (S n) (v / 256)).
    rewrite IH. cbn [le_digits app].
    rewrite Nat2Z.inj_succ, Z.pow_succ_r, Z.div_div by lia. reflexivity.
Qed.

(** The most significant digit comes first in the big-endian string. *)
Lemma rev_le_digits_head (n : nat) (v : Z) :
  rev (le_digits (S n) v) = byte_of_Z (v / 256 ^ Z.of_nat n) :: rev (le_digits n v).
Proof.
  rewrite le_digits_snoc, rev_app_distr. reflexivity.
Qed.

Lemma slice_to_app {A : Type} (l1 l2 : list A) : slice_to (len l1) (l1 ++ l2) = l1.
Proof.
  unfold slice_to, len. rewrite Nat2Z.id, firstn_app, Nat.sub_diag, firstn_all.
  simpl. apply app_nil_r.
Qed.

Lemma slice_from_app {A : Type} (l1 l2 : list A) : slice_from (len l1) (l1 ++ l2) = l2.
Proof.
  unfold slice_from, len. rewrite Nat2Z.id, skipn_app, Nat.sub_diag, skipn_all.
  reflexivity.
Qed.

End Bytes.

(** ** [int_to_little_endian] *)

(** C9, as the code has it: for a [length] that a [bytes] object can
    have and that the allocator grants, and for [0 <= value < 256 ^ length],
    [int_to_little_endian] returns exactly [length] bytes, and reading
    them back as a little-endian integer gives [value]. *)
Theorem int_to_little_endian_correct (memory value length : Z) :
  length <= bytes_size_max ->
  length <= memory ->
  0 <= value < 256 ^ length ->
  exists b,
    Ex3Signatures.int_to_little_endian memory value length = Ok b /\
    Ex4WitnessData.int_to_little_endian memory value length = Ok b /\
    len b = length /\
    from_bytes_little b = value.
Proof.
  intros Hmax Hmem Hv.
  assert (Hl : 0 <= length).
  { destruct (Z.ltb_spec length 0) as [Hneg|]; [|assumption].
    rewrite Z.pow_neg_r in Hv by assumption. lia. }
  exists (le_digits (Z.to_nat length) value).
  unfold Ex3Signatures.int_to_little_endian, Ex4WitnessData.int_to_little_endian, to_bytes.
  unfold bytes_size_max, ssize_t_max in *.
  destruct (Z.ltb_spec length (- (2 ^ 63 - 1) - 1)); [lia|].
  destruct (Z.ltb_spec (2 ^ 63 - 1) length); [lia|]. cbn [orb].
  destruct (Z.ltb_spec length 0); [lia|].
  destruct (Z.ltb_spec (2 ^ 63 - 1 - 33) length); [lia|].
  destruct (Z.ltb_spec memory length); [lia|].
  destruct (Z.ltb_spec value 0); [lia|].
  destruct (Z.leb_spec (256 ^ length) value); [lia|].
  repeat split.
  - unfold len. rewrite le_digits_length. lia.
  - rewrite from_bytes_little_le_digits, Z2Nat.id by assumption.
    apply Z.mod_small, Hv.
Qed.

Lemma int_to_little_endian_correct_witness :
  4 <= bytes_size_max /\
  4 <= 1024 /\
  0 <= 258 < 256 ^ 4 /\
  exists b,
    Ex3Signatures.int_to_little_endian 1024 258 4 = Ok b /\
    Ex4WitnessData.int_to_little_endian 1024 258 4 = Ok b /\
    len b = 4 /\
    from_bytes_little b = 258.
Proof.
  assert (Hmax : 4 <= bytes_size_max) by (unfold bytes_size_max, ssize_t_max; lia).
  assert (Hmem : 4 <= 1024) by lia.
  assert (Hv : 0 <= 258 < 256 ^ 4) by lia.
  exact (conj Hmax (conj Hmem (conj Hv
    (int_to_little_endian_correct 1024 258 4 Hmax Hmem Hv)))).
Defined.

(** C9 as the specification words it fails: the value 0 is below
    [256 ^ length] for every length, yet the call raises [OverflowError]
    for the length [2 ^ 63], which is no C [ssize_t], and for the length
    [2 ^ 63 - 1], which no [bytes] object can have, however much memory
    there is; and it raises [MemoryError] for a length of [2 ^ 40] when
    the allocator grants [2 ^ 30] bytes. *)
Lemma int_to_little_endian_rejects_length_2_63 :
  (0 <= 0 < 256 ^ (2 ^ 63) /\
   Ex3Signatures.int_to_little_endian (2 ^ 64) 0 (2 ^ 63) = Raise OverflowError /\
   Ex4WitnessData.int_to_little_endian (2 ^ 64) 0 (2 ^ 63) = Raise OverflowError) /\
  (0 <= 0 < 256 ^ (2 ^ 63 - 1) /\
   Ex3Signatures.int_to_little_endian (2 ^ 64) 0 (2 ^ 63 - 1) = Raise OverflowError /\
   Ex4WitnessData.int_to_little_endian (2 ^ 64) 0 (2 ^ 63 - 1) = Raise OverflowError) /\
  (0 <= 0 < 256 ^ (2 ^ 40) /\
   Ex3Signatures.int_to_little_endian (2 ^ 30) 0 (2 ^ 40) = Raise MemoryError /\
   Ex4WitnessData.int_to_little_endian (2 ^ 30) 0 (2 ^ 40) = Raise MemoryError).
Proof.
  assert (Hpos : forall e, 0 <= e -> 0 <= 0 < 256 ^ e).
  { intros e He. split; [apply Z.le_refl|].
    apply Z.pow_pos_nonneg; [reflexivity | exact He]. }
  split; [|split]; (split; [apply Hpos; vm_compute; discriminate|]);
    split; reflexivity.
Qed.

(** ** DER encoding of a signature *)

Section Der.

(** A property of the numbers below 128 that holds on each of them. *)
Lemma below_128_cases (P : Z -> bool) :
  forallb P (map Z.of_nat (seq 0 128)) = true ->
  forall l, 0 <= l < 128 -> P l = true.
Proof.
  intros Hall l Hl. rewrite forallb_forall in Hall. apply Hall.
  apply in_map_iff. exists (Z.to_nat l). split; [lia|].
  apply in_seq. lia.
Qed.

Lemma land_0x80_short (l : Z) : 0 <= l < 128 -> Z.land l 0x80 = 0.
Proof.
  intros Hl. apply Z.eqb_eq.
  apply (below_128_cases (fun l => Z.land l 0x80 =? 0)); [reflexivity | exact Hl].
Qed.

Lemma land_0x7F_short (l : Z) : 0 <= l < 128 -> Z.land l 0x7F = l.
Proof.
  intros Hl. apply Z.eqb_eq.
  apply (below_128_cases (fun l => Z.land l 0x7F =? l)); [reflexivity | exact Hl].
Qed.

Lemma hex_bytes_len (r : Z) : len (hex_bytes r) = Z.log2 r / 8 + 1.
Proof.
  unfold hex_bytes, hex_len. rewrite len_rev. unfold len.
  rewrite le_digits_length.
  pose proof (Z.log2_nonneg r) as Hlog.
  replace (Z.log2 r / 4 + 1 + 1) with (Z.log2 r / 4 + 1 * 2) by lia.
  rewrite Z.div_add, Z.div_div by lia. change (4 * 2) with 8.
  assert (0 <= Z.log2 r / 8) by (apply Z.div_pos; lia). lia.
Qed.

Lemma hex_bytes_digits (r : Z) :
  hex_bytes r = rev (le_digits (S (Z.to_nat (Z.log2 r / 8))) r).
Proof.
  pose proof (hex_bytes_len r) as Hlen. unfold hex_bytes in *.
  rewrite len_rev in Hlen. unfold len in Hlen. rewrite le_digits_length in Hlen.
  assert (0 <= Z.log2 r / 8) by (apply Z.div_pos; [apply Z.log2_nonneg | lia]).
  f_equal. f_equal. lia.
Qed.

Lemma pow_256 (m : Z) : 0 <= m -> 256 ^ m = 2 ^ (8 * m).
Proof. intros Hm. rewrite Z.pow_mul_r by lia. reflexivity. Qed.

(** [r] fits in as many base-256 digits as [hex_bytes] gives it. *)
Lemma hex_bytes_bound (r : Z) : 0 <= r -> r < 256 ^ (Z.log2 r / 8 + 1).
Proof.
  intros Hr.
  assert (Hq : 0 <= Z.log2 r / 8) by (apply Z.div_pos; [apply Z.log2_nonneg | lia]).
  rewrite pow_256 by lia.
  destruct (Z.eq_dec r 0) as [->|Hnz].
  - apply Z.pow_pos_nonneg; lia.
  - pose proof (Z.log2_spec r ltac:(lia)) as [_ Hup].
    eapply Z.lt_le_trans; [exact Hup|].
    apply Z.pow_le_mono_r; [lia|].
    pose proof (Z.div_mod (Z.log2 r) 8 ltac:(lia)).
    pose proof (Z.mod_pos_bound (Z.log2 r) 8 ltac:(lia)). lia.
Qed.

(** No digit is wasted: a second digit means the first one is not zero. *)
Lemma hex_bytes_minimal (r : Z) :
  0 <= r -> 0 < Z.log2 r / 8 -> 256 ^ (Z.log2 r / 8) <= r.
Proof.
  intros Hr Hq. rewrite pow_256 by lia.
  assert (Hpos : 0 < r).
  { destruct (Z.eq_dec r 0) as [->|]; [discriminate Hq | lia]. }
  pose proof (Z.log2_spec r Hpos) as [Hlow _].
  eapply Z.le_trans; [|exact Hlow].
  apply Z.pow_le_mono_r; [lia|].
  pose proof (Z.div_mod (Z.log2 r) 8 ltac:(lia)).
  pose proof (Z.mod_pos_bound (Z.log2 r) 8 ltac:(lia)). lia.
Qed.

Lemma hex_bytes_value (r : Z) : 0 <= r -> from_bytes_big (hex_bytes r) = r.
Proof.
  intros Hr. rewrite hex_bytes_digits. apply from_bytes_big_digits.
  assert (0 <= Z.log2 r / 8) by (apply Z.div_pos; [apply Z.log2_nonneg | lia]).
  pose proof (hex_bytes_bound r Hr).
  replace (Z.of_nat (S (Z.to_nat (Z.log2 r / 8)))) with (Z.log2 r / 8 + 1) by lia.
  lia.
Qed.

Lemma leading_range (r : Z) : 0 <= r -> 0 <= leading r < 256.
Proof.
  intros Hr. unfold leading.
  assert (Hq : 0 <= Z.log2 r / 8) by (apply Z.div_pos; [apply Z.log2_nonneg | lia]).
  assert (Hp : 0 < 256 ^ (Z.log2 r / 8)) by (apply Z.pow_pos_nonneg; lia).
  split.
  - apply Z.div_pos; lia.
  - apply Z.div_lt_upper_bound; [exact Hp|].
    pose proof (hex_bytes_bound r Hr) as Hb.
    rewrite Z.pow_add_r in Hb by lia. lia.
Qed.

Lemma leading_nonzero (r : Z) : 0 <= r -> 0 < Z.log2 r / 8 -> 1 <= leading r.
Proof.
  intros Hr Hq. unfold leading.
  assert (Hp : 0 < 256 ^ (Z.log2 r / 8)) by (apply Z.pow_pos_nonneg; lia).
  apply Z.div_le_lower_bound; [exact Hp|].
  pose proof (hex_bytes_minimal r Hr Hq). lia.
Qed.

Lemma hex_bytes_head (r : Z) :
  0 <= r -> exists tl, hex_bytes r = byte_of_Z (leading r) :: tl.
Proof.
  intros Hr. rewrite hex_bytes_digits, rev_le_digits_head.
  assert (0 <= Z.log2 r / 8) by (apply Z.div_pos; [apply Z.log2_nonneg | lia]).
  rewrite Z2Nat.id by assumption. eexists. reflexivity.
Qed.

Lemma hex_bytes_idx0 (r : Z) : 0 <= r -> str_idx_as_int (hex_bytes r) 0 = leading r.
Proof.
  intros Hr. destruct (hex_bytes_head r Hr) as [tl ->].
  unfold str_idx_as_int. cbn [nth].
  apply byte_to_of_small, leading_range, Hr.
Qed.

(** Numbers below [2^256] take 32 bytes at most. *)
Lemma hex_bytes_len_256 (r : Z) : 0 <= r < 2 ^ 256 -> 1 <= len (hex_bytes r) <= 32.
Proof.
  intros Hr. rewrite hex_bytes_len.
  assert (0 <= Z.log2 r / 8) by (apply Z.div_pos; [apply Z.log2_nonneg | lia]).
  split; [lia|].
  assert (Z.log2 r < 256).
  { destruct (Z.eq_dec r 0) as [->|]; [reflexivity|].
    apply Z.log2_lt_pow2; lia. }
  assert (Z.log2 r / 8 < 32) by (apply Z.div_lt_upper_bound; lia).
  lia.
Qed.

Lemma encode_length_short (l : Z) :
  0 <= l < 128 -> encode_length l = Ok [byte_of_Z l].
Proof.
  intros Hl. unfold encode_length, assert, bytes_of_int.
  destruct (Z.leb_spec 0 l); [|lia]. cbn [bind].
  destruct (Z.ltb_spec l 0x80); [|lia].
  destruct (Z.ltb_spec l 256); [|lia]. reflexivity.
Qed.

Lemma read_length_short (l : Z) (rest : bytes) :
  0 <= l < 128 -> read_length (byte_of_Z l :: rest) = Ok (l, 1).
Proof.
  intros Hl. unfold read_length, str_idx_as_int. cbn [nth].
  rewrite byte_to_of_small by lia.
  rewrite land_0x80_short, land_0x7F_short by exact Hl. reflexivity.
Qed.

Lemma integer_body_len (r : Z) :
  0 <= r < 2 ^ 256 -> 1 <= len (integer_body r) <= 33.
Proof.
  intros Hr. pose proof (hex_bytes_len_256 r Hr). unfold integer_body.
  destruct (leading r <=? 0x7F); [|rewrite len_cons]; lia.
Qed.

Lemma encode_integer_spec (r : Z) :
  0 <= r < 2 ^ 256 ->
  encode_integer r = Ok (x02 :: byte_of_Z (len (integer_body r)) :: integer_body r).
Proof.
  intros Hr. pose proof (hex_bytes_len_256 r Hr) as Hlen.
  unfold encode_integer, assert, integer_body.
  destruct (Z.leb_spec 0 r); [|lia]. cbn [bind].
  rewrite hex_bytes_idx0 by lia.
  destruct (leading r <=? 0x7F).
  - rewrite encode_length_short by lia. reflexivity.
  - rewrite encode_length_short by lia. cbn [bind app].
    rewrite len_cons, Z.add_comm. reflexivity.
Qed.

Lemma integer_body_value (r : Z) : 0 <= r -> from_bytes_big (integer_body r) = r.
Proof.
  intros Hr. unfold integer_body. destruct (leading r <=? 0x7F).
  - apply hex_bytes_value, Hr.
  - change (x00 :: hex_bytes r) with ([x00] ++ hex_bytes r).
    rewrite from_bytes_big_app, hex_bytes_value by exact Hr.
    change (from_bytes_big [x00]) with 0. lia.
Qed.

(** The checks that [remove_integer] makes on the content bytes pass. *)
Lemma integer_body_checks (r : Z) :
  0 <= r ->
  let body := integer_body r in
  (str_idx_as_int body 0 <? 0x80) = true /\
  ((1 <? len body) && (str_idx_as_int body 0 =? 0)
   && (str_idx_as_int body 1 <? 0x80)) = false.
Proof.
  intros Hr. unfold integer_body.
  pose proof (hex_bytes_idx0 r Hr) as Hidx.
  destruct (Z.leb_spec (leading r) 0x7F) as [Hsmall|Hbig]; cbv zeta.
  - split; [rewrite Hidx; apply Z.ltb_lt; lia|].
    rewrite Hidx, hex_bytes_len.
    destruct (Z.ltb_spec 1 (Z.log2 r / 8 + 1)) as [Hmany|]; [|reflexivity].
    pose proof (leading_nonzero r Hr ltac:(lia)).
    destruct (Z.eqb_spec (leading r) 0); [lia | reflexivity].
  - split; [reflexivity|].
    change (str_idx_as_int (x00 :: hex_bytes r) 1) with (str_idx_as_int (hex_bytes r) 0).
    rewrite Hidx. destruct (Z.ltb_spec (leading r) 0x80); [lia|].
    apply andb_false_r.
Qed.

Lemma remove_integer_encode (r : Z) (e rest : bytes) :
  0 <= r < 2 ^ 256 ->
  encode_integer r = Ok e ->
  remove_integer (e ++ rest) = Ok (r, rest).
Proof.
  intros Hr He. rewrite encode_integer_spec in He by exact Hr.
  injection He as <-.
  pose proof (integer_body_len r Hr) as Hlen.
  pose proof (integer_body_checks r ltac:(lia)) as [Hmsb Hpad].
  pose proof (integer_body_value r ltac:(lia)) as Hval.
  set (body := integer_body r) in *.
  unfold remove_integer. cbn [app].
  change (negb (byte_to_Z x02 =? 0x02)) with false. cbv iota.
  change (slice_from 1 (x02 :: byte_of_Z (len body) :: body ++ rest))
    with (byte_of_Z (len body) :: body ++ rest).
  rewrite read_length_short by lia. cbn [bind].
  rewrite !len_cons, len_app.
  destruct (Z.ltb_spec (1 + (1 + (len body + len rest)) - 1 - 1) (len body)) as [Hbad|_];
    [pose proof (len_nonneg rest); lia|].
  destruct (Z.eqb_spec (len body) 0); [lia|].
  change (slice_from (1 + 1) (x02 :: byte_of_Z (len body) :: body ++ rest))
    with (body ++ rest).
  rewrite slice_to_app.
  replace (slice_from (1 + 1 + len body) (x02 :: byte_of_Z (len body) :: body ++ rest))
    with rest.
  2:{ change (x02 :: byte_of_Z (len body) :: body ++ rest)
        with ([x02; byte_of_Z (len body)] ++ body ++ rest).
      rewrite app_assoc.
      replace (1 + 1 + len body) with (len ([x02; byte_of_Z (len body)] ++ body))
        by (rewrite len_app; reflexivity).
      rewrite slice_from_app. reflexivity. }
  rewrite Hmsb, Hpad, Hval. reflexivity.
Qed.

Lemma encode_integer_len (r : Z) (e : bytes) :
  0 <= r < 2 ^ 256 -> encode_integer r = Ok e -> 3 <= len e <= 35.
Proof.
  intros Hr He. rewrite encode_integer_spec in He by exact Hr.
  injection He as <-. pose proof (integer_body_len r Hr).
  rewrite !len_cons. lia.
Qed.

(** [sigdecode_der] undoes [sigencode_der] on numbers below [2^256], and
    the encoding takes 72 bytes at most. *)
Lemma sigdecode_sigencode (r s order : Z) (der : bytes) :
  0 <= r < 2 ^ 256 -> 0 <= s < 2 ^ 256 ->
  sigencode_der r s order = Ok der ->
  sigdecode_der der order = Ok (r, s) /\ 8 <= len der <= 72.
Proof.
  intros Hr Hs Henc. unfold sigencode_der in Henc.
  destruct (encode_integer r) as [er| |] eqn:Her; try discriminate.
  destruct (encode_integer s) as [es| |] eqn:Hes; try discriminate.
  cbn [bind] in Henc.
  pose proof (encode_integer_len r er Hr Her) as Hlr.
  pose proof (encode_integer_len s es Hs Hes) as Hls.
  unfold encode_sequence in Henc.
  rewrite encode_length_short in Henc by lia. cbn [bind app] in Henc.
  injection Henc as <-.
  split; [|rewrite !len_cons, len_app; lia].
  unfold sigdecode_der, remove_sequence.
  change (negb (byte_to_Z x30 =? 0x30)) with false. cbv iota.
  change (slice_from 1 (x30 :: byte_of_Z (len er + len es) :: er ++ es))
    with (byte_of_Z (len er + len es) :: er ++ es).
  rewrite read_length_short by lia. cbn [bind].
  rewrite !len_cons, len_app.
  destruct (Z.ltb_spec (1 + (1 + (len er + len es)) - 1 - 1) (len er + len es)); [lia|].
  change (slice_from (1 + 1) (x30 :: byte_of_Z (len er + len es) :: er ++ es))
    with (er ++ es).
  rewrite <- len_app.
  rewrite <- (app_nil_r (er ++ es)) at 2. rewrite slice_to_app.
  replace (slice_from (1 + 1 + len (er ++ es))
             (x30 :: byte_of_Z (len (er ++ es)) :: er ++ es)) with (@nil byte).
  2:{ change (x30 :: byte_of_Z (len (er ++ es)) :: er ++ es)
        with ([x30; byte_of_Z (len (er ++ es))] ++ (er ++ es)).
      rewrite <- (app_nil_r ([x30; byte_of_Z (len (er ++ es))] ++ (er ++ es))).
      replace (1 + 1 + len (er ++ es))
        with (len ([x30; byte_of_Z (len (er ++ es))] ++ (er ++ es)))
        by (rewrite len_app; reflexivity).
      rewrite slice_from_app. reflexivity. }
  cbn [bind].
  rewrite (remove_integer_encode r er es Hr Her). cbn [bind].
  rewrite <- (app_nil_r es).
  rewrite (remove_integer_encode s es [] Hs Hes). reflexivity.
Qed.

Lemma sigencode_der_ok (r s order : Z) :
  0 <= r < 2 ^ 256 -> 0 <= s < 2 ^ 256 ->
  exists der, sigencode_der r s order = Ok der.
Proof.
  intros Hr Hs. unfold sigencode_der.
  destruct (encode_integer r) as [er| |] eqn:Her;
    [|rewrite encode_integer_spec in Her by exact Hr; discriminate Her ..].
  destruct (encode_integer s) as [es| |] eqn:Hes;
    [|rewrite encode_integer_spec in Hes by exact Hs; discriminate Hes ..].
  cbn [bind].
  pose proof (encode_integer_len r er Hr Her).
  pose proof (encode_integer_len s es Hs Hes).
  unfold encode_sequence. rewrite encode_length_short by lia. cbn [bind].
  eexists. reflexivity.
Qed.

End Der.

(** ** The signer *)

Section Signer.

Lemma order_facts :
  0 < order SECP256k1 /\ order SECP256k1 < 2 ^ 256 /\
  order SECP256k1 = 2 * (order SECP256k1 / 2) + 1.
Proof. vm_compute. repeat split; reflexivity. Qed.

Lemma baselen_SECP256k1 : baselen SECP256k1 = 32.
Proof. vm_compute. reflexivity. Qed.

Lemma low_s_range (s : Z) :
  1 <= s < order SECP256k1 -> 1 <= low_s s <= order SECP256k1 / 2.
Proof.
  intros Hs. destruct order_facts as (Hpos & _ & Hodd). unfold low_s.
  destruct (Z.ltb_spec (order SECP256k1 / 2) s); lia.
Qed.

Lemma Private_key_sign_range (c : Curve) (d h k r s : Z) :
  0 < order c ->
  Private_key_sign c d h k = Ok (r, s) ->
  1 <= r < order c /\ 1 <= s < order c.
Proof.
  intros Hn. unfold Private_key_sign.
  destruct (if bit_length (k mod order c + order c) =? bit_length (order c)
            then generator_mul c (k mod order c + order c + order c)
            else generator_mul c (k mod order c + order c)) as [[|x y]| |];
    cbn [bind]; try discriminate.
  destruct (Z.eqb_spec (x mod order c) 0) as [|Hr]; [discriminate|].
  destruct (inverse_mod (k mod order c) (order c)) as [k_inv| |];
    cbn [bind]; try discriminate.
  match goal with |- context [?e =? 0] => destruct (Z.eqb_spec e 0) as [|Hs] end;
    [discriminate|].
  intros [= <- <-].
  split.
  - pose proof (Z.mod_pos_bound x (order c) Hn). lia.
  - match type of Hs with ?e mod _ <> 0 =>
      pose proof (Z.mod_pos_bound e (order c) Hn) end. lia.
Qed.

Lemma sign_digest_simple_range (rnd : Z -> Z) (sk : SigningKey) (d : bytes)
    (k : option Z) (r s o : Z) :
  0 < order (sk_curve sk) ->
  sign_digest rnd sk d simple_r_s k false = Ok (r, s, o) ->
  o = order (sk_curve sk) /\ 1 <= r < o /\ 1 <= s < o /\ len d <= baselen (sk_curve sk).
Proof.
  intros Hn. unfold sign_digest, truncate_and_convert_digest. cbn [negb].
  destruct (Z.ltb_spec (baselen (sk_curve sk)) (len d)); cbn [bind]; [discriminate|].
  destruct (string_to_number d) as [number| |]; cbn [bind]; try discriminate.
  unfold sign_number.
  destruct (assert _); cbn [bind]; try discriminate.
  destruct (Private_key_sign _ _ _ _) as [[r' s']| |] eqn:Hsig; cbn [bind]; try discriminate.
  unfold simple_r_s. intros [= <- <- <-].
  apply Private_key_sign_range in Hsig; [|exact Hn]. intuition.
Qed.

Lemma sign_digest_retry_range (n b : nat) (rnd : Z -> Z) (sk : SigningKey)
    (d : bytes) (h : hashfunc) (retry_gen r s o : Z) :
  0 < order (sk_curve sk) ->
  sign_digest_retry n b rnd sk d h retry_gen = Ok (r, s, o) ->
  o = order (sk_curve sk) /\ 1 <= r < o /\ 1 <= s < o /\ len d <= baselen (sk_curve sk).
Proof.
  intros Hn. revert retry_gen. induction n as [|n IH]; intros retry_gen; [discriminate|].
  cbn [sign_digest_retry].
  destruct (generate_k _ _ _ _ _ _ _) as [k| |]; cbn [bind]; try discriminate.
  destruct (sign_digest rnd sk d simple_r_s (Some k) false) as [[[r' s'] o']|e|] eqn:Hsig.
  - intros [= <- <- <-]. eapply sign_digest_simple_range; eassumption.
  - destruct e; try discriminate. apply IH.
  - discriminate.
Qed.

(** What [from_string] has checked when it returns a key. *)
Lemma from_string_inv (string : bytes) (curve : Curve) (sk : SigningKey) :
  from_string string curve = Ok sk ->
  len string = baselen curve /\
  1 <= from_bytes_big string < order curve /\
  sk_curve sk = curve /\
  sk_secexp sk = from_bytes_big string /\
  generator_mul curve (from_bytes_big string) = Ok (verifying_key sk).
Proof.
  unfold from_string, from_secret_exponent.
  destruct (Z.eqb_spec (len string) (baselen curve)) as [Hlen|]; [|discriminate].
  cbn [negb]. unfold string_to_number.
  destruct string as [|b0 string]; [discriminate|]. cbn [bind].
  set (secexp := from_bytes_big (b0 :: string)).
  destruct (Z.leb_spec 1 secexp); cbn [andb negb]; [|discriminate].
  destruct (Z.ltb_spec secexp (order curve)); cbn [negb]; [|discriminate].
  destruct (generator_mul curve secexp) as [pt| |]; cbn [bind]; try discriminate.
  intros [= <-]. cbn. repeat split; assumption || lia.
Qed.

Lemma from_string_invalid (string : bytes) (curve : Curve) :
  ~ (len string = baselen curve /\ 1 <= from_bytes_big string < order curve) ->
  from_string string curve = Raise MalformedPointError.
Proof.
  intros Hbad. unfold from_string, from_secret_exponent.
  destruct (Z.eqb_spec (len string) (baselen curve)) as [Hlen|]; [|reflexivity].
  cbn [negb]. unfold string_to_number.
  destruct string as [|b0 string].
  - exfalso. apply Hbad. split; [exact Hlen|].
    unfold len in Hlen. cbn in Hlen. unfold baselen, orderlen, hex_len in Hlen.
    pose proof (Z.log2_nonneg (order curve)).
    assert (0 <= Z.log2 (order curve) / 4) by (apply Z.div_pos; lia).
    assert (1 <= (1 + (Z.log2 (order curve) / 4 + 1)) / 2)
      by (apply Z.div_le_lower_bound; lia).
    lia.
  - cbn [bind]. set (secexp := from_bytes_big (b0 :: string)) in *.
    destruct (Z.leb_spec 1 secexp); cbn [andb negb]; [|reflexivity].
    destruct (Z.ltb_spec secexp (order curve)); cbn [negb]; [|reflexivity].
    exfalso. apply Hbad. split; [assumption | lia].
Qed.

(** The body of the loop of [sign], when it completes: the raw signature
    [(r, s)] of the package, its [s] corrected, encoded and tagged; and the
    final test of the loop is passed. *)
Lemma sign_body_inv (b : nat) (rnd : Z -> Z) (sk : SigningKey) (c out : bytes)
    (exit : bool) :
  sk_curve sk = SECP256k1 ->
  Ex4WitnessData.sign_body b rnd sk c = Ok (out, exit) ->
  exit = true /\
  exists r s der,
    1 <= r < order SECP256k1 /\ 1 <= s < order SECP256k1 /\
    sign_digest_retry b b rnd sk c sha256 0 = Ok (r, s, order SECP256k1) /\
    sigencode_der r (low_s s) (order SECP256k1) = Ok der /\
    out = der ++ [x01].
Proof.
  intros Hcurve. destruct order_facts as (Hpos & Hlt & Hodd).
  unfold Ex4WitnessData.sign_body, sign_digest_deterministic.
  destruct (sign_digest_retry b b rnd sk c sha256 0) as [[[r0 s0] o]| |] eqn:Hraw;
    cbn [bind]; [|discriminate|discriminate].
  pose proof Hraw as Hrange.
  apply sign_digest_retry_range in Hrange; [|rewrite Hcurve; exact Hpos].
  rewrite Hcurve in Hrange. destruct Hrange as (-> & Hr & Hs & _).
  destruct (sigencode_der r0 s0 (order SECP256k1)) as [der0| |] eqn:Henc0;
    cbn [bind]; [|discriminate|discriminate].
  destruct (sigdecode_sigencode r0 s0 _ der0 ltac:(lia) ltac:(lia) Henc0) as [-> _].
  cbn [bind].
  destruct (order SECP256k1 / 2 <? s0) eqn:Hcmp.
  - assert (Hlow : low_s s0 = order SECP256k1 - s0)
      by (unfold low_s; rewrite Hcmp; reflexivity).
    apply Z.ltb_lt in Hcmp.
    destruct (sigencode_der r0 (order SECP256k1 - s0) (order SECP256k1))
      as [der1| |] eqn:Henc1; cbn [bind]; [|discriminate|discriminate].
    assert (Hexit : (order SECP256k1 - s0 <=? order SECP256k1 / 2) = true)
      by (apply Z.leb_le; lia).
    rewrite Hexit. intros [= <- <-]. split; [reflexivity|].
    exists r0, s0, der1. rewrite Hlow.
    split; [exact Hr|]. split; [exact Hs|]. split; [reflexivity|].
    split; [exact Henc1 | reflexivity].
  - assert (Hlow : low_s s0 = s0)
      by (unfold low_s; rewrite Hcmp; reflexivity).
    apply Z.ltb_ge in Hcmp.
    cbn [bind].
    assert (Hexit : (s0 <=? order SECP256k1 / 2) = true) by (apply Z.leb_le; lia).
    rewrite Hexit. intros [= <- <-]. split; [reflexivity|].
    exists r0, s0, der0. rewrite Hlow.
    split; [exact Hr|]. split; [exact Hs|]. split; [reflexivity|].
    split; [exact Henc0 | reflexivity].
Qed.

Lemma sign_loop_inv (n b : nat) (rnd : Z -> Z) (sk : SigningKey) (c blob : bytes) :
  sk_curve sk = SECP256k1 ->
  Ex4WitnessData.sign_loop n b rnd sk c = Ok blob ->
  Ex4WitnessData.sign_body b rnd sk c = Ok (blob, true).
Proof.
  intros Hcurve. destruct n as [|n]; [discriminate|].
  cbn [Ex4WitnessData.sign_loop].
  destruct (Ex4WitnessData.sign_body b rnd sk c) as [[out exit]| |] eqn:Hbody;
    cbn [bind]; try discriminate.
  destruct (sign_body_inv _ _ _ _ _ _ Hcurve Hbody) as [-> _].
  intros [= ->]. reflexivity.
Qed.

(** What a blob returned by [sign] is made of. *)
Lemma sign_inv (b : nat) (rnd : Z -> Z) (private_key c blob : bytes) :
  Ex4WitnessData.sign b rnd private_key c = Ok blob ->
  exists r s der,
    1 <= r < order SECP256k1 /\ 1 <= s <= order SECP256k1 / 2 /\
    sigencode_der r s (order SECP256k1) = Ok der /\
    sigdecode_der der (order SECP256k1) = Ok (r, s) /\
    len der <= 72 /\
    blob = der ++ [x01].
Proof.
  unfold Ex4WitnessData.sign.
  destruct (from_string private_key SECP256k1) as [sk| |] eqn:Hkey;
    cbn [bind]; try discriminate.
  apply from_string_inv in Hkey. destruct Hkey as (_ & _ & Hcurve & _).
  intros Hloop. apply sign_loop_inv in Hloop; [|exact Hcurve].
  apply sign_body_inv in Hloop; [|exact Hcurve].
  destruct Hloop as (_ & r & s & der & Hr & Hs & _ & Henc & ->).
  destruct order_facts as (Hpos & Hlt & Hodd).
  pose proof (low_s_range s Hs) as Hlow.
  destruct (sigdecode_sigencode r (low_s s) _ der ltac:(lia) ltac:(lia) Henc)
    as [Hdec Hlen].
  exists r, (low_s s), der.
  split; [exact Hr|]. split; [exact Hlow|]. split; [exact Henc|].
  split; [exact Hdec|]. split; [lia | reflexivity].
Qed.

(** [sign] adds no failure of its own: when the package returns a raw
    signature [(r, s)], [sign] returns its encoding with [s] corrected,
    followed by the sighash byte. *)
Lemma sign_complete (budget : nat) (rnd : Z -> Z) (private_key c : bytes)
    (sk : SigningKey) (r s o : Z) :
  from_string private_key SECP256k1 = Ok sk ->
  sign_digest_retry budget budget rnd sk c sha256 0 = Ok (r, s, o) ->
  exists der,
    sigencode_der r (low_s s) (order SECP256k1) = Ok der /\
    Ex4WitnessData.sign budget rnd private_key c = Ok (der ++ [x01]).
Proof.
  intros Hkey Hraw. destruct order_facts as (Hpos & Hlt & Hodd).
  pose proof (from_string_inv _ _ _ Hkey) as (_ & _ & Hcurve & _).
  pose proof Hraw as Hrange.
  apply sign_digest_retry_range in Hrange; [|rewrite Hcurve; exact Hpos].
  rewrite Hcurve in Hrange. destruct Hrange as (-> & Hr & Hs & _).
  pose proof (low_s_range s Hs) as Hlow.
  destruct (sigencode_der_ok r s (order SECP256k1) ltac:(lia) ltac:(lia))
    as [der0 Henc0].
  destruct (sigencode_der_ok r (low_s s) (order SECP256k1) ltac:(lia) ltac:(lia))
    as [der Henc].
  destruct (sigdecode_sigencode r s _ der0 ltac:(lia) ltac:(lia) Henc0) as [Hdec _].
  exists der. split; [exact Henc|].
  assert (Hbody : Ex4WitnessData.sign_body budget rnd sk c = Ok (der ++ [x01], true)).
  { unfold Ex4WitnessData.sign_body, sign_digest_deterministic.
    rewrite Hraw. cbn [bind]. rewrite Henc0. cbn [bind]. rewrite Hdec. cbn [bind].
    unfold low_s in Henc, Hlow.
    destruct (order SECP256k1 / 2 <? s) eqn:Hcmp.
    - rewrite Henc. cbn [bind].
      assert (Hexit : (order SECP256k1 - s <=? order SECP256k1 / 2) = true)
        by (apply Z.leb_le; lia).
      rewrite Hexit. reflexivity.
    - cbn [bind]. rewrite Henc in Henc0. injection Henc0 as <-.
      assert (Hexit : (s <=? order SECP256k1 / 2) = true) by (apply Z.leb_le; lia).
      rewrite Hexit. reflexivity. }
  unfold Ex4WitnessData.sign. rewrite Hkey. cbn [bind].
  destruct budget as [|n]; [discriminate Hraw|].
  cbn [Ex4WitnessData.sign_loop]. rewrite Hbody. reflexivity.
Qed.

Lemma ex3_sign_eq : Ex3Signatures.sign = Ex4WitnessData.sign.
Proof. reflexivity. Qed.

End Signer.

Import Vectors.

Section TestVectors.

(** The ends of the table of round constants, and the digest of ["abc"]
    given in the standard. *)
Lemma sha256_constants :
  length Hashlib.K = 64%nat /\ hd 0 Hashlib.K = 0x428a2f98 /\
  last Hashlib.K 0 = 0xc67178f2 /\ hd 0 Hashlib.H0 = 0x6a09e667.
Proof. repeat split; reflexivity. Qed.

Lemma sha256_abc :
  from_bytes_big (digest sha256 [x61; x62; x63]) =
  0xba7816bf8f01cfea414140de5dae2223b00361a396177a9cb410ff61f20015ad.
Proof. vm_compute. reflexivity. Qed.

(** The nonce of RFC 6979 for [key_one] and [commitment_satoshi]. *)
Lemma generate_k_satoshi :
  generate_k 1 (order SECP256k1) 1 sha256 commitment_satoshi 0 [] =
  Ok 0x8F8A276C19F4149656B280621E358CCE24F5F52542772691EE69063B74F15D15.
Proof. vm_compute. reflexivity. Qed.

Lemma key_one_valid : valid_private_key key_one.
Proof.
  split; [reflexivity|].
  split; vm_compute; [discriminate | reflexivity].
Qed.

Lemma from_string_key_one : from_string key_one SECP256k1 = Ok sk_one.
Proof. vm_compute. reflexivity. Qed.


Lemma sign_test_vector :
  Ex4WitnessData.sign 1 entropy_zero key_one commitment_test = Ok blob_test.
Proof. vm_compute. reflexivity. Qed.

Lemma sign_test_vector_again :
  Ex4WitnessData.sign 2 entropy_top key_one commitment_test = Ok blob_test.
Proof. vm_compute. reflexivity. Qed.

Lemma sign_satoshi_vector :
  Ex4WitnessData.sign 1 entropy_zero key_one commitment_satoshi = Ok blob_satoshi.
Proof. vm_compute. reflexivity. Qed.

(** The signature that the package gives for [commitment_satoshi] has its
    [s] above half the order: [sign] takes the correcting branch on it. *)
Lemma raw_satoshi_high_s :
  sign_digest_retry 1 1 entropy_zero sk_one commitment_satoshi sha256 0 =
    Ok (raw_r_satoshi, raw_s_satoshi, order SECP256k1) /\
  order SECP256k1 / 2 < raw_s_satoshi.
Proof. split; vm_compute; reflexivity. Qed.

Lemma sign_31_vector :
  Ex4WitnessData.sign 1 entropy_zero key_one commitment_31 = Ok blob_31.
Proof. vm_compute. reflexivity. Qed.

Lemma sign_test_vector_ex3 :
  Ex3Signatures.sign 1 entropy_zero key_one commitment_test = Ok blob_test.
Proof. rewrite ex3_sign_eq. exact sign_test_vector. Qed.

Lemma sign_satoshi_vector_ex3 :
  Ex3Signatures.sign 1 entropy_zero key_one commitment_satoshi = Ok blob_satoshi.
Proof. rewrite ex3_sign_eq. exact sign_satoshi_vector. Qed.

Lemma sign_test_vector_again_ex3 :
  Ex3Signatures.sign 2 entropy_top key_one commitment_test = Ok blob_test.
Proof. rewrite ex3_sign_eq. exact sign_test_vector_again. Qed.

Lemma sign_31_vector_ex3 :
  Ex3Signatures.sign 1 entropy_zero key_one commitment_31 = Ok blob_31.
Proof. rewrite ex3_sign_eq. exact sign_31_vector. Qed.

Lemma sign_33_vector :
  Ex4WitnessData.sign 1 entropy_zero key_one commitment_33 = Raise BadDigestError.
Proof. vm_compute. reflexivity. Qed.

Lemma key_ones_valid : valid_private_key key_ones.
Proof.
  split; [reflexivity|].
  split; vm_compute; [discriminate | reflexivity].
Qed.

Lemma commitment_test_len : len commitment_test = 32.
Proof. vm_compute. reflexivity. Qed.

(** The public point of [key_ones]: the ladder runs over 249 binary
    digits of the key. *)
Lemma generator_mul_key_ones :
  generator_mul SECP256k1 (from_bytes_big key_ones) =
  Ok (Affine point_ones_x point_ones_y).
Proof. vm_compute. reflexivity. Qed.

(** The raw signature of the package for [key_ones] and [commitment_test]
    has its [s] above half the order. *)
Lemma raw_sign_key_ones :
  sign_digest_retry 1 1 entropy_zero (signing_key key_ones point_ones_x point_ones_y)
    commitment_test sha256 0 = Ok (raw_r_ones, raw_s_ones, order SECP256k1).
Proof. vm_compute. reflexivity. Qed.

Lemma raw_s_ones_high : order SECP256k1 / 2 < raw_s_ones.
Proof. vm_compute. reflexivity. Qed.

Lemma get_pub_from_priv_key_ones :
  Ex4WitnessData.get_pub_from_priv key_ones = Ok pubkey_ones.
Proof. vm_compute. reflexivity. Qed.

Lemma generate_k_33 :
  generate_k 1 (order SECP256k1) (sk_secexp sk_one) sha256 commitment_33 0 [] =
  Ok nonce_33.
Proof. vm_compute. reflexivity. Qed.

Lemma get_pub_from_priv_key_one :
  Ex4WitnessData.get_pub_from_priv key_one = Ok pubkey_one.
Proof. vm_compute. reflexivity. Qed.

End TestVectors.

(** C1: the blob returned by [sign], without its last byte, DER-decodes
    to a pair [(r, s)] with [s <= order / 2]. *)
Theorem sign_low_s (budget : nat) (randrange : Z -> Z)
    (private_key commitment blob : bytes) :
  valid_private_key private_key ->
  len commitment = 32 ->
  Ex4WitnessData.sign budget randrange private_key commitment = Ok blob ->
  exists r s,
    sigdecode_der (removelast blob) (order SECP256k1) = Ok (r, s) /\
    s <= order SECP256k1 / 2.
Proof.
  intros _ _ Hsign.
  destruct (sign_inv _ _ _ _ _ Hsign) as (r & s & der & _ & Hs & _ & Hdec & _ & ->).
  exists r, s. rewrite removelast_last. split; [exact Hdec | lia].
Qed.

Lemma sign_low_s_witness :
  valid_private_key key_one /\
  len commitment_satoshi = 32 /\
  Ex4WitnessData.sign 1 entropy_zero key_one commitment_satoshi = Ok blob_satoshi /\
  exists r s,
    sigdecode_der (removelast blob_satoshi) (order SECP256k1) = Ok (r, s) /\
    s <= order SECP256k1 / 2.
Proof.
  assert (Hlen : len commitment_satoshi = 32) by (vm_compute; reflexivity).
  exact (conj key_one_valid (conj Hlen (conj sign_satoshi_vector
    (sign_low_s 1 entropy_zero key_one commitment_satoshi blob_satoshi
       key_one_valid Hlen sign_satoshi_vector)))).
Defined.

(** C5: the last byte of a blob returned by [sign] is [0x01], and what
    comes before it is the DER encoding of the signature. *)
Theorem sign_sighash_byte (budget : nat) (randrange : Z -> Z)
    (private_key commitment blob : bytes) :
  Ex3Signatures.sign budget randrange private_key commitment = Ok blob ->
  last blob x00 = x01 /\
  exists r s der,
    sigencode_der r s (order SECP256k1) = Ok der /\ blob = der ++ [x01].
Proof.
  rewrite ex3_sign_eq. intros Hsign.
  destruct (sign_inv _ _ _ _ _ Hsign) as (r & s & der & _ & _ & Henc & _ & _ & ->).
  split; [apply last_last|]. exists r, s, der. split; [exact Henc | reflexivity].
Qed.

Lemma sign_sighash_byte_witness :
  Ex3Signatures.sign 1 entropy_zero key_one commitment_test = Ok blob_test /\
  last blob_test x00 = x01 /\
  exists r s der,
    sigencode_der r s (order SECP256k1) = Ok der /\ blob_test = der ++ [x01].
Proof.
  exact (conj sign_test_vector_ex3
    (sign_sighash_byte 1 entropy_zero key_one commitment_test blob_test
       sign_test_vector_ex3)).
Defined.

(** C7: decoding the DER part of a blob returned by [sign] and encoding
    the pair again gives the DER part back. *)
Theorem sign_der_round_trip (budget : nat) (randrange : Z -> Z)
    (private_key commitment blob : bytes) :
  Ex3Signatures.sign budget randrange private_key commitment = Ok blob ->
  exists r s,
    sigdecode_der (removelast blob) (order SECP256k1) = Ok (r, s) /\
    sigencode_der r s (order SECP256k1) = Ok (removelast blob).
Proof.
  rewrite ex3_sign_eq. intros Hsign.
  destruct (sign_inv _ _ _ _ _ Hsign) as (r & s & der & _ & _ & Henc & Hdec & _ & ->).
  exists r, s. rewrite removelast_last. split; assumption.
Qed.

Lemma sign_der_round_trip_witness :
  Ex3Signatures.sign 1 entropy_zero key_one commitment_satoshi = Ok blob_satoshi /\
  exists r s,
    sigdecode_der (removelast blob_satoshi) (order SECP256k1) = Ok (r, s) /\
    sigencode_der r s (order SECP256k1) = Ok (removelast blob_satoshi).
Proof.
  exact (conj sign_satoshi_vector_ex3
    (sign_der_round_trip 1 entropy_zero key_one commitment_satoshi blob_satoshi
       sign_satoshi_vector_ex3)).
Defined.



(** C10: the two definitions of [sign] give the same outcome on every
    input: the same bytes, the same exception, or both use up the budget. *)
Theorem sign_ex3_ex4_equal (budget : nat) (randrange : Z -> Z)
    (private_key commitment : bytes) :
  Ex3Signatures.sign budget randrange private_key commitment =
  Ex4WitnessData.sign budget randrange private_key commitment.
Proof.
  unfold Ex3Signatures.sign, Ex4WitnessData.sign.
  destruct (from_string private_key SECP256k1) as [sk| |]; cbn [bind];
    [|reflexivity|reflexivity].
  generalize budget at 1 3 as n.
  induction n as [|n IH]; [reflexivity|].
  cbn [Ex3Signatures.sign_loop Ex4WitnessData.sign_loop].
  change (Ex3Signatures.sign_body budget randrange sk commitment)
    with (Ex4WitnessData.sign_body budget randrange sk commitment).
  destruct (Ex4WitnessData.sign_body budget randrange sk commitment) as [[out exit]| |];
    cbn [bind]; [|reflexivity|reflexivity].
  destruct exit; [reflexivity | exact IH].
Qed.

(** ** The witness builder *)

Section Witness.

Lemma number_to_string_len (num order : Z) (string : bytes) :
  number_to_string num order = Ok string -> len string = orderlen order.
Proof.
  unfold number_to_string, assert.
  destruct (unhexlify_padded (orderlen order) num) as [s| |]; cbn [bind];
    [|discriminate|discriminate].
  destruct (Z.eqb_spec (len s) (orderlen order)) as [Hlen|]; cbn [bind];
    [|discriminate].
  intros [= <-]. exact Hlen.
Qed.

Lemma number_to_string_256 (num order : Z) :
  orderlen order = 32 -> 0 <= num < 2 ^ 256 ->
  number_to_string num order = Ok (rev (le_digits 32 num)).
Proof.
  intros Hlen Hnum. unfold number_to_string, unhexlify_padded. rewrite Hlen.
  destruct (Z.ltb_spec num 0); [lia|].
  assert (Hhex : hex_len num <= 64).
  { unfold hex_len.
    assert (Z.log2 num < 256).
    { destruct (Z.eq_dec num 0) as [->|]; [reflexivity|].
      apply Z.log2_lt_pow2; lia. }
    assert (Z.log2 num / 4 < 64) by (apply Z.div_lt_upper_bound; lia).
    lia. }
  rewrite Z.max_l by lia. reflexivity.
Qed.

Lemma curve_p_facts :
  0 < curve_p SECP256k1 /\ curve_p SECP256k1 < 2 ^ 256 /\
  orderlen (curve_p SECP256k1) = 32.
Proof. vm_compute. repeat split; reflexivity. Qed.

(** The coordinates that [generator_mul] returns are reduced modulo the
    field prime. *)
Lemma generator_mul_range (c : Curve) (k x y : Z) :
  0 < curve_p c ->
  generator_mul c k = Ok (Affine x y) ->
  0 <= x < curve_p c /\ 0 <= y < curve_p c.
Proof.
  intros Hp. unfold generator_mul.
  destruct k as [|k|k]; [discriminate| |discriminate].
  destruct (generator c) as [gx gy].
  destruct (jacobi_mul _ _ k _) as [[X1 Y1] Z1]. unfold to_affine.
  destruct (BigZ.to_Z Z1 mod curve_p c =? 0); [discriminate|].
  destruct (inverse_mod (BigZ.to_Z Z1) (curve_p c)) as [z_inv| |]; cbn [bind];
    [|discriminate|discriminate].
  intros [= <- <-]. split; apply Z.mod_pos_bound; exact Hp.
Qed.

Lemma get_pub_from_priv_inv (priv pub : bytes) :
  Ex4WitnessData.get_pub_from_priv priv = Ok pub ->
  len pub = 33 /\ (hd x00 pub = x02 \/ hd x00 pub = x03).
Proof.
  unfold Ex4WitnessData.get_pub_from_priv.
  destruct (from_string priv SECP256k1) as [sk| |] eqn:Hkey; cbn [bind];
    [|discriminate|discriminate].
  apply from_string_inv in Hkey. destruct Hkey as (_ & _ & -> & _).
  unfold to_string_compressed.
  destruct (verifying_key sk) as [|x y]; cbn [bind]; [discriminate|].
  destruct (number_to_string x (curve_p SECP256k1)) as [x_str| |] eqn:Hx;
    cbn [bind]; [|discriminate|discriminate].
  apply number_to_string_len in Hx.
  destruct curve_p_facts as (_ & _ & Hlen). rewrite Hlen in Hx.
  destruct (Z.land y 1 =? 0); cbn [bind]; intros [= <-]; cbn [app hd];
    rewrite len_cons, Hx; auto.
Qed.

(** What [from_string] returns for a valid key when the curve arithmetic
    gives a finite public point. *)
Lemma from_string_valid (priv : bytes) (x y : Z) :
  valid_private_key priv ->
  generator_mul SECP256k1 (from_bytes_big priv) = Ok (Affine x y) ->
  from_string priv SECP256k1 = Ok (signing_key priv x y).
Proof.
  intros [Hlen Hrange] Hmul. unfold from_string, from_secret_exponent.
  rewrite baselen_SECP256k1, Hlen. cbn [Z.eqb Pos.eqb negb].
  unfold string_to_number. destruct priv as [|b0 priv]; [discriminate Hlen|].
  cbn [bind].
  destruct (Z.leb_spec 1 (from_bytes_big (b0 :: priv))); [|lia].
  destruct (Z.ltb_spec (from_bytes_big (b0 :: priv)) (order SECP256k1)); [|lia].
  cbn [andb negb]. rewrite Hmul. reflexivity.
Qed.

Lemma get_pub_from_priv_complete (priv : bytes) (x y : Z) :
  valid_private_key priv ->
  generator_mul SECP256k1 (from_bytes_big priv) = Ok (Affine x y) ->
  Ex4WitnessData.get_pub_from_priv priv =
  Ok ((if Z.land y 1 =? 0 then x02 else x03) :: rev (le_digits 32 x)).
Proof.
  intros Hvalid Hmul. unfold Ex4WitnessData.get_pub_from_priv.
  rewrite (from_string_valid priv x y Hvalid Hmul). cbn [bind].
  unfold signing_key. cbn [verifying_key sk_curve]. unfold to_string_compressed.
  destruct curve_p_facts as (Hp & Hp256 & Hplen).
  pose proof (generator_mul_range _ _ _ _ Hp Hmul) as [Hx _].
  rewrite (number_to_string_256 x _ Hplen) by lia. cbn [bind].
  destruct (Z.land y 1 =? 0); reflexivity.
Qed.

(** The witness that [get_p2wpkh_witness] puts together from what its two
    calls return. *)
Lemma get_p2wpkh_witness_assemble (budget : nat) (rnd : Z -> Z)
    (priv msg sig pub : bytes) :
  Ex4WitnessData.sign budget rnd priv msg = Ok sig ->
  Ex4WitnessData.get_pub_from_priv priv = Ok pub ->
  let witness := [x02] ++ [byte_of_Z (len sig)] ++ sig ++ [byte_of_Z 33] ++ pub in
  Ex4WitnessData.get_p2wpkh_witness budget rnd priv msg = Ok witness /\
  hd x00 witness = x02 /\
  byte_to_Z (byte_of_Z (len sig)) = len sig /\
  byte_to_Z (byte_of_Z 33) = len pub /\
  len witness = 1 + 1 + len sig + 1 + 33.
Proof.
  intros Hsign Hpub witness.
  destruct (sign_inv _ _ _ _ _ Hsign) as (r & s & der & _ & _ & _ & _ & Hder & Hsig).
  assert (Hsiglen : 0 <= len sig < 256).
  { rewrite Hsig, len_app. pose proof (len_nonneg der).
    change (len [x01]) with 1. lia. }
  destruct (get_pub_from_priv_inv _ _ Hpub) as [Hpublen _].
  split.
  - unfold Ex4WitnessData.get_p2wpkh_witness. rewrite Hsign, Hpub. cbn [bind].
    change (bytes_of_int 2) with (Ok [x02]). cbn [bind].
    unfold bytes_of_int at 1.
    destruct (Z.leb_spec 0 (len sig)); [|lia].
    destruct (Z.ltb_spec (len sig) 256); [|lia]. cbn [andb bind].
    rewrite Hpublen. change (bytes_of_int 33) with (Ok [byte_of_Z 33]).
    cbn [bind]. subst witness. rewrite <- !app_assoc. reflexivity.
  - split; [reflexivity|]. split; [apply byte_to_of_small; exact Hsiglen|].
    split; [rewrite Hpublen; reflexivity|].
    subst witness. rewrite !len_app, Hpublen.
    change (len [x02]) with 1. change (len [byte_of_Z (len sig)]) with 1.
    change (len [byte_of_Z 33]) with 1. lia.
Qed.

End Witness.

(** C6: for a valid private key, whatever [get_pub_from_priv] returns has
    33 bytes and begins with [0x02] or [0x03], and every call returns that
    same output; and the call does return, with [0x02] or [0x03] by the
    parity of [y] followed by the 32 big-endian bytes of [x], whenever the
    curve arithmetic gives the finite point [(x, y)] for the key. *)
Theorem get_pub_from_priv_compressed (priv : bytes) :
  valid_private_key priv ->
  (forall out, Ex4WitnessData.get_pub_from_priv priv = Ok out ->
     len out = 33 /\
     (hd x00 out = x02 \/ hd x00 out = x03) /\
     (forall out', Ex4WitnessData.get_pub_from_priv priv = Ok out' -> out' = out)) /\
  (forall x y, generator_mul SECP256k1 (from_bytes_big priv) = Ok (Affine x y) ->
     Ex4WitnessData.get_pub_from_priv priv =
     Ok ((if Z.land y 1 =? 0 then x02 else x03) :: rev (le_digits 32 x))).
Proof.
  intros Hvalid. split.
  - intros out Hcall.
    destruct (get_pub_from_priv_inv priv out Hcall) as [Hlen Hhd].
    split; [exact Hlen|]. split; [exact Hhd|].
    intros out' Hcall'. rewrite Hcall in Hcall'. injection Hcall' as <-. reflexivity.
  - intros x y Hmul. exact (get_pub_from_priv_complete priv x y Hvalid Hmul).
Qed.

Lemma get_pub_from_priv_compressed_witness :
  valid_private_key key_ones /\
  (Ex4WitnessData.get_pub_from_priv key_ones = Ok pubkey_ones /\
   len pubkey_ones = 33 /\
   (hd x00 pubkey_ones = x02 \/ hd x00 pubkey_ones = x03) /\
   (forall out', Ex4WitnessData.get_pub_from_priv key_ones = Ok out' ->
      out' = pubkey_ones)) /\
  (generator_mul SECP256k1 (from_bytes_big key_ones) =
     Ok (Affine point_ones_x point_ones_y) /\
   Ex4WitnessData.get_pub_from_priv key_ones =
     Ok ((if Z.land point_ones_y 1 =? 0 then x02 else x03)
         :: rev (le_digits 32 point_ones_x))).
Proof.
  split; [exact key_ones_valid|]. split.
  - exact (conj get_pub_from_priv_key_ones
      (proj1 (get_pub_from_priv_compressed key_ones key_ones_valid)
         pubkey_ones get_pub_from_priv_key_ones)).
  - exact (conj generator_mul_key_ones
      (proj2 (get_pub_from_priv_compressed key_ones key_ones_valid)
         point_ones_x point_ones_y generator_mul_key_ones)).
Defined.

(** C3: for a valid private key and a commitment of 32 bytes,
    [get_p2wpkh_witness] returns whenever the curve arithmetic gives the
    finite public point [(x, y)] and the package a raw signature [(r, s)]:
    [sign] returns the blob [sig], [get_pub_from_priv] the key [pub], and
    the witness is [0x02], the length of [sig] in one byte, [sig], the
    byte 33 and the 33 bytes of [pub], [1 + 1 + len(sig) + 1 + 33] bytes
    in all. *)
Theorem get_p2wpkh_witness_layout (budget : nat) (randrange : Z -> Z)
    (priv msg : bytes) (x y r s o : Z) :
  valid_private_key priv ->
  len msg = 32 ->
  generator_mul SECP256k1 (from_bytes_big priv) = Ok (Affine x y) ->
  sign_digest_retry budget budget randrange (signing_key priv x y) msg sha256 0 =
    Ok (r, s, o) ->
  exists der,
    sigencode_der r (low_s s) (order SECP256k1) = Ok der /\
    let sig := der ++ [x01] in
    let pub := (if Z.land y 1 =? 0 then x02 else x03) :: rev (le_digits 32 x) in
    let witness := [x02] ++ [byte_of_Z (len sig)] ++ sig ++ [byte_of_Z 33] ++ pub in
    Ex4WitnessData.sign budget randrange priv msg = Ok sig /\
    Ex4WitnessData.get_pub_from_priv priv = Ok pub /\
    Ex4WitnessData.get_p2wpkh_witness budget randrange priv msg = Ok witness /\
    hd x00 witness = x02 /\
    byte_to_Z (byte_of_Z (len sig)) = len sig /\
    byte_to_Z (byte_of_Z 33) = len pub /\
    len witness = 1 + 1 + len sig + 1 + 33.
Proof.
  intros Hvalid _ Hmul Hraw.
  pose proof (from_string_valid priv x y Hvalid Hmul) as Hkey.
  destruct (sign_complete _ _ _ _ _ _ _ _ Hkey Hraw) as (der & Henc & Hsign).
  pose proof (get_pub_from_priv_complete priv x y Hvalid Hmul) as Hpub.
  exists der. split; [exact Henc|]. cbv zeta.
  split; [exact Hsign|]. split; [exact Hpub|].
  exact (get_p2wpkh_witness_assemble budget randrange priv msg _ _ Hsign Hpub).
Qed.

Lemma get_p2wpkh_witness_layout_witness :
  valid_private_key key_ones /\
  len commitment_test = 32 /\
  generator_mul SECP256k1 (from_bytes_big key_ones) =
    Ok (Affine point_ones_x point_ones_y) /\
  sign_digest_retry 1 1 entropy_zero (signing_key key_ones point_ones_x point_ones_y)
    commitment_test sha256 0 = Ok (raw_r_ones, raw_s_ones, order SECP256k1) /\
  exists der,
    sigencode_der raw_r_ones (low_s raw_s_ones) (order SECP256k1) = Ok der /\
    let sig := der ++ [x01] in
    let pub := (if Z.land point_ones_y 1 =? 0 then x02 else x03)
               :: rev (le_digits 32 point_ones_x) in
    let witness := [x02] ++ [byte_of_Z (len sig)] ++ sig ++ [byte_of_Z 33] ++ pub in
    Ex4WitnessData.sign 1 entropy_zero key_ones commitment_test = Ok sig /\
    Ex4WitnessData.get_pub_from_priv key_ones = Ok pub /\
    Ex4WitnessData.get_p2wpkh_witness 1 entropy_zero key_ones commitment_test =
      Ok witness /\
    hd x00 witness = x02 /\
    byte_to_Z (byte_of_Z (len sig)) = len sig /\
    byte_to_Z (byte_of_Z 33) = len pub /\
    len witness = 1 + 1 + len sig + 1 + 33.
Proof.
  exact (conj key_ones_valid (conj commitment_test_len (conj generator_mul_key_ones
    (conj raw_sign_key_ones
      (get_p2wpkh_witness_layout 1 entropy_zero key_ones commitment_test
         point_ones_x point_ones_y raw_r_ones raw_s_ones (order SECP256k1)
         key_ones_valid commitment_test_len generator_mul_key_ones
         raw_sign_key_ones))))).
Defined.

(** ** Determinism *)

Section Determinism.

Lemma agree_refl {A : Type} (x : result A) : agree x x.
Proof. right. right. reflexivity. Qed.

Lemma agree_bind {A B : Type} (m1 m2 : result A) (f1 f2 : A -> result B) :
  agree m1 m2 -> (forall a, agree (f1 a) (f2 a)) -> agree (bind m1 f1) (bind m2 f2).
Proof.
  intros [-> | [-> | ->]] Hf.
  - left. reflexivity.
  - right. left. reflexivity.
  - destruct m2 as [a| |]; cbn [bind]; [apply Hf | apply agree_refl | apply agree_refl].
Qed.

Lemma agree_ok {A : Type} (x y : result A) (a b : A) :
  agree x y -> x = Ok a -> y = Ok b -> a = b.
Proof.
  intros [-> | [-> | ->]]; [discriminate | discriminate |].
  intros -> [= ->]. reflexivity.
Qed.

Lemma generate_k_h_agree (b1 b2 : nat) (h : hashfunc) (order qlen rolen : Z)
    (k v : bytes) (retry_gen : Z) :
  agree (generate_k_h b1 h order qlen rolen k v retry_gen)
        (generate_k_h b2 h order qlen rolen k v retry_gen).
Proof.
  revert b2 k v retry_gen.
  induction b1 as [|b1 IH]; intros b2 k v retry_gen; [left; reflexivity|].
  destruct b2 as [|b2]; [right; left; reflexivity|].
  cbn [generate_k_h].
  apply agree_bind; [apply agree_refl|]. intros [v' t].
  apply agree_bind; [apply agree_refl|]. intros secret.
  destruct ((1 <=? secret) && (secret <? order) && (retry_gen <=? 0));
    [apply agree_refl | apply IH].
Qed.

Lemma generate_k_agree (b1 b2 : nat) (order secexp : Z) (h : hashfunc)
    (data : bytes) (retry_gen : Z) (extra : bytes) :
  agree (generate_k b1 order secexp h data retry_gen extra)
        (generate_k b2 order secexp h data retry_gen extra).
Proof.
  unfold generate_k.
  apply agree_bind; [apply agree_refl|]. intros bx0.
  apply agree_bind; [apply agree_refl|]. intros bx1.
  apply generate_k_h_agree.
Qed.

(** With [k] given, [sign_digest] does not consult the random source. *)
Lemma sign_digest_given_k {A : Type} (rnd1 rnd2 : Z -> Z) (sk : SigningKey)
    (d : bytes) (enc : Z -> Z -> Z -> result A) (k : Z) (allow : bool) :
  sign_digest rnd1 sk d enc (Some k) allow = sign_digest rnd2 sk d enc (Some k) allow.
Proof. reflexivity. Qed.

Lemma sign_digest_retry_agree (n1 n2 b1 b2 : nat) (rnd1 rnd2 : Z -> Z)
    (sk : SigningKey) (d : bytes) (h : hashfunc) (retry_gen : Z) :
  agree (sign_digest_retry n1 b1 rnd1 sk d h retry_gen)
        (sign_digest_retry n2 b2 rnd2 sk d h retry_gen).
Proof.
  revert n2 retry_gen.
  induction n1 as [|n1 IH]; intros n2 retry_gen; [left; reflexivity|].
  destruct n2 as [|n2]; [right; left; reflexivity|].
  cbn [sign_digest_retry].
  apply agree_bind; [apply generate_k_agree|]. intros k.
  rewrite (sign_digest_given_k rnd1 rnd2).
  destruct (sign_digest rnd2 sk d simple_r_s (Some k) false) as [rs|e|];
    [apply agree_refl | | apply agree_refl].
  destruct e; try apply agree_refl. apply IH.
Qed.

Lemma sign_body_agree (b1 b2 : nat) (rnd1 rnd2 : Z -> Z) (sk : SigningKey)
    (c : bytes) :
  agree (Ex4WitnessData.sign_body b1 rnd1 sk c) (Ex4WitnessData.sign_body b2 rnd2 sk c).
Proof.
  unfold Ex4WitnessData.sign_body, sign_digest_deterministic.
  apply agree_bind; [|intros a; apply agree_refl].
  apply agree_bind; [apply sign_digest_retry_agree|].
  intros [[r s] o]. apply agree_refl.
Qed.

Lemma sign_loop_agree (n1 n2 b1 b2 : nat) (rnd1 rnd2 : Z -> Z) (sk : SigningKey)
    (c : bytes) :
  agree (Ex4WitnessData.sign_loop n1 b1 rnd1 sk c)
        (Ex4WitnessData.sign_loop n2 b2 rnd2 sk c).
Proof.
  revert n2. induction n1 as [|n1 IH]; intros n2; [left; reflexivity|].
  destruct n2 as [|n2]; [right; left; reflexivity|].
  cbn [Ex4WitnessData.sign_loop].
  apply agree_bind; [apply sign_body_agree|]. intros [out exit].
  destruct exit; [apply agree_refl | apply IH].
Qed.

Lemma sign_agree (b1 b2 : nat) (rnd1 rnd2 : Z -> Z) (private_key c : bytes) :
  agree (Ex4WitnessData.sign b1 rnd1 private_key c)
        (Ex4WitnessData.sign b2 rnd2 private_key c).
Proof.
  unfold Ex4WitnessData.sign.
  apply agree_bind; [apply agree_refl|]. intros sk. apply sign_loop_agree.
Qed.

End Determinism.

(** C2: two calls of [sign] on the same private key and commitment return
    the same bytes, whatever the random source of the process yields in
    each run and however many loop passes each run is allowed. *)
Theorem sign_deterministic (budget1 budget2 : nat) (randrange1 randrange2 : Z -> Z)
    (private_key commitment out1 out2 : bytes) :
  Ex3Signatures.sign budget1 randrange1 private_key commitment = Ok out1 ->
  Ex3Signatures.sign budget2 randrange2 private_key commitment = Ok out2 ->
  out1 = out2.
Proof.
  rewrite ex3_sign_eq. intros H1 H2.
  exact (agree_ok _ _ _ _ (sign_agree budget1 budget2 randrange1 randrange2
                             private_key commitment) H1 H2).
Qed.

Lemma sign_deterministic_witness :
  Ex3Signatures.sign 1 entropy_zero key_one commitment_test = Ok blob_test /\
  Ex3Signatures.sign 2 entropy_top key_one commitment_test = Ok blob_test /\
  blob_test = blob_test.
Proof.
  exact (conj sign_test_vector_ex3 (conj sign_test_vector_again_ex3
    (sign_deterministic 1 2 entropy_zero entropy_top key_one commitment_test
       blob_test blob_test sign_test_vector_ex3 sign_test_vector_again_ex3))).
Defined.

(** ** Rejected inputs *)

Section Rejection.

Lemma from_bytes_big_range (b : bytes) : 0 <= from_bytes_big b < 256 ^ len b.
Proof.
  induction b as [|d b IH] using rev_ind.
  - change (from_bytes_big []) with 0. change (len (@nil byte)) with 0. lia.
  - rewrite from_bytes_big_app, len_app.
    change (len [d]) with 1. change (from_bytes_big [d]) with (0 * 256 + byte_to_Z d).
    pose proof (byte_to_Z_range d). pose proof (len_nonneg b).
    rewrite Z.pow_add_r by lia. lia.
Qed.

Lemma string_to_number_cons (d : byte) (b : bytes) :
  string_to_number (d :: b) = Ok (from_bytes_big (d :: b)).
Proof. reflexivity. Qed.

Lemma unhexlify_padded_256 (num : Z) :
  0 <= num < 2 ^ 256 -> unhexlify_padded 32 num = Ok (rev (le_digits 32 num)).
Proof.
  intros Hnum. unfold unhexlify_padded.
  destruct (Z.ltb_spec num 0); [lia|].
  assert (Hhex : hex_len num <= 64).
  { unfold hex_len.
    assert (Z.log2 num < 256).
    { destruct (Z.eq_dec num 0) as [->|]; [reflexivity|].
      apply Z.log2_lt_pow2; lia. }
    assert (Z.log2 num / 4 < 64) by (apply Z.div_lt_upper_bound; lia).
    lia. }
  rewrite Z.max_l by lia. reflexivity.
Qed.

Lemma order_lengths :
  orderlen (order SECP256k1) = 32 /\ bit_length (order SECP256k1) = 256.
Proof. vm_compute. split; reflexivity. Qed.

(** [bits2int] of a non-empty string stays below [2^qlen] when it has
    more than [qlen] bits, and below [2^(8 * len)] otherwise. *)
Lemma bits2int_256 (data : bytes) :
  data <> [] -> exists z, bits2int data 256 = Ok z /\ 0 <= z < 2 ^ 256.
Proof.
  intros Hne. destruct data as [|d data]; [contradiction|].
  unfold bits2int. rewrite string_to_number_cons. cbn [bind].
  pose proof (from_bytes_big_range (d :: data)) as Hx.
  pose proof (len_nonneg (d :: data)) as Hl.
  rewrite pow_256 in Hx by lia. rewrite (Z.mul_comm 8) in Hx.
  set (x := from_bytes_big (d :: data)) in *.
  set (l := len (d :: data) * 8) in *.
  destruct (Z.ltb_spec 256 l) as [Hlong|Hshort].
  - eexists. split; [reflexivity|].
    rewrite Z.shiftr_div_pow2 by lia.
    assert (0 < 2 ^ (l - 256)) by (apply Z.pow_pos_nonneg; lia).
    split; [apply Z.div_pos; lia|].
    apply Z.div_lt_upper_bound; [lia|].
    rewrite <- Z.pow_add_r by lia. replace (l - 256 + 256) with l by lia. lia.
  - eexists. split; [reflexivity|].
    assert (2 ^ l <= 2 ^ 256) by (apply Z.pow_le_mono_r; lia). lia.
Qed.

Lemma generate_k_h2_outcome (n : nat) (h : hashfunc) (rolen : Z) (k v t : bytes) :
  generate_k_h2 n h rolen k v t = OutOfBudget \/
  exists v' t', generate_k_h2 n h rolen k v t = Ok (v', t') /\ rolen <= len t'.
Proof.
  revert v t. induction n as [|n IH]; intros v t.
  - cbn [generate_k_h2]. destruct (Z.ltb_spec (len t) rolen); [left; reflexivity|].
    right. exists v, t. split; [reflexivity | assumption].
  - cbn [generate_k_h2]. destruct (Z.ltb_spec (len t) rolen); [apply IH|].
    right. exists v, t. split; [reflexivity | assumption].
Qed.

(** The loop of [generate_k] raises nothing when [rolen] is positive. *)
Lemma generate_k_h_no_raise (b : nat) (h : hashfunc) (order qlen rolen : Z)
    (k v : bytes) (retry_gen : Z) (e : exn) :
  0 < rolen -> generate_k_h b h order qlen rolen k v retry_gen <> Raise e.
Proof.
  intros Hrolen. revert k v retry_gen.
  induction b as [|b IH]; intros k v retry_gen; [discriminate|].
  cbn [generate_k_h].
  destruct (generate_k_h2_outcome (Z.to_nat rolen) h rolen k v [])
    as [-> | (v' & t' & -> & Hlen)]; cbn [bind]; [discriminate|].
  destruct t' as [|d t']; [change (len (@nil byte)) with 0 in Hlen; lia|].
  unfold bits2int. rewrite string_to_number_cons. cbn [bind].
  match goal with |- context [if ?c then Ok ?z else Ok ?x] =>
    destruct c; cbn [bind] end;
  match goal with |- context [if ?c then Ok ?z else generate_k_h _ _ _ _ _ _ _ _] =>
    destruct c; [discriminate | apply IH] end.
Qed.

(** Nonce generation raises nothing for a key that [from_string] has
    accepted and a non-empty digest. *)
Lemma generate_k_no_raise (b : nat) (secexp : Z) (data : bytes) (retry_gen : Z)
    (e : exn) :
  1 <= secexp < order SECP256k1 -> data <> [] ->
  generate_k b (order SECP256k1) secexp sha256 data retry_gen [] <> Raise e.
Proof.
  intros Hsec Hne. destruct order_facts as (Hpos & Hlt & _).
  destruct order_lengths as (Holen & Hbits).
  unfold generate_k.
  rewrite (number_to_string_256 secexp _ Holen) by lia. cbn [bind].
  unfold bits2octets. rewrite Hbits.
  destruct (bits2int_256 data Hne) as (z1 & -> & Hz1). cbn [bind].
  unfold number_to_string_crop. rewrite Holen.
  rewrite unhexlify_padded_256
    by (destruct (Z.ltb_spec (z1 - order SECP256k1) 0); lia).
  cbn [bind]. apply generate_k_h_no_raise. reflexivity.
Qed.

Lemma sign_digest_long (rnd : Z -> Z) (sk : SigningKey) (d : bytes) (k : option Z) :
  baselen (sk_curve sk) < len d ->
  sign_digest rnd sk d simple_r_s k false = Raise BadDigestError.
Proof.
  intros Hlong. unfold sign_digest, truncate_and_convert_digest. cbn [negb].
  destruct (Z.ltb_spec (baselen (sk_curve sk)) (len d)); [reflexivity | lia].
Qed.

Lemma sign_digest_retry_long (n b : nat) (rnd : Z -> Z) (sk : SigningKey)
    (d : bytes) (retry_gen : Z) :
  sk_curve sk = SECP256k1 -> 1 <= sk_secexp sk < order SECP256k1 ->
  32 < len d ->
  sign_digest_retry n b rnd sk d sha256 retry_gen = Raise BadDigestError \/
  sign_digest_retry n b rnd sk d sha256 retry_gen = OutOfBudget.
Proof.
  intros Hcurve Hsec Hlong. destruct n as [|n]; [right; reflexivity|].
  cbn [sign_digest_retry]. rewrite Hcurve.
  assert (Hne : d <> []).
  { intros ->. change (len (@nil byte)) with 0 in Hlong. lia. }
  pose proof (generate_k_no_raise b (sk_secexp sk) d retry_gen) as Hgen.
  destruct (generate_k b (order SECP256k1) (sk_secexp sk) sha256 d retry_gen [])
    as [k|e|]; cbn [bind].
  - rewrite sign_digest_long
      by (rewrite Hcurve, baselen_SECP256k1; exact Hlong).
    left. reflexivity.
  - exfalso. exact (Hgen e Hsec Hne eq_refl).
  - right. reflexivity.
Qed.

Lemma sign_long_commitment (budget : nat) (rnd : Z -> Z) (private_key c : bytes)
    (sk : SigningKey) :
  from_string private_key SECP256k1 = Ok sk ->
  32 < len c ->
  Ex4WitnessData.sign budget rnd private_key c = Raise BadDigestError \/
  Ex4WitnessData.sign budget rnd private_key c = OutOfBudget.
Proof.
  intros Hkey Hlong. unfold Ex4WitnessData.sign. rewrite Hkey. cbn [bind].
  apply from_string_inv in Hkey.
  destruct Hkey as (_ & Hrange & Hcurve & Hsec & _). rewrite <- Hsec in Hrange.
  generalize budget at 1 3 as n. intros n.
  destruct n as [|n]; [right; reflexivity|].
  cbn [Ex4WitnessData.sign_loop].
  unfold Ex4WitnessData.sign_body, sign_digest_deterministic.
  destruct (sign_digest_retry_long budget budget rnd sk c 0 Hcurve Hrange Hlong)
    as [-> | ->]; cbn [bind]; [left | right]; reflexivity.
Qed.

Lemma sign_invalid_key (budget : nat) (rnd : Z -> Z) (private_key c : bytes) :
  ~ valid_private_key private_key ->
  Ex4WitnessData.sign budget rnd private_key c = Raise MalformedPointError.
Proof.
  intros Hbad. unfold Ex4WitnessData.sign.
  rewrite from_string_invalid; [reflexivity|].
  rewrite baselen_SECP256k1. exact Hbad.
Qed.

(** Once the nonce is there, the digest is found too long. *)
Lemma sign_long_commitment_exact (budget : nat) (rnd : Z -> Z)
    (private_key c : bytes) (sk : SigningKey) (k : Z) :
  from_string private_key SECP256k1 = Ok sk ->
  generate_k budget (order SECP256k1) (sk_secexp sk) sha256 c 0 [] = Ok k ->
  32 < len c ->
  Ex4WitnessData.sign budget rnd private_key c = Raise BadDigestError.
Proof.
  intros Hkey Hgen Hlong. unfold Ex4WitnessData.sign. rewrite Hkey. cbn [bind].
  apply from_string_inv in Hkey. destruct Hkey as (_ & _ & Hcurve & _).
  assert (Hbody : Ex4WitnessData.sign_body budget rnd sk c = Raise BadDigestError).
  { unfold Ex4WitnessData.sign_body, sign_digest_deterministic.
    destruct budget as [|n].
    - exfalso. unfold generate_k in Hgen.
      destruct (number_to_string (sk_secexp sk) (order SECP256k1)) as [bx0| |];
        cbn [bind] in Hgen; [|discriminate Hgen|discriminate Hgen].
      destruct (bits2octets c (order SECP256k1)) as [bx1| |];
        cbn [bind generate_k_h] in Hgen; discriminate Hgen.
    - cbn [sign_digest_retry]. rewrite Hcurve, Hgen. cbn [bind].
      rewrite sign_digest_long
        by (rewrite Hcurve, baselen_SECP256k1; exact Hlong).
      reflexivity. }
  destruct budget as [|n].
  - unfold Ex4WitnessData.sign_body, sign_digest_deterministic in Hbody.
    cbn [sign_digest_retry bind] in Hbody. discriminate Hbody.
  - cbn [Ex4WitnessData.sign_loop]. rewrite Hbody. reflexivity.
Qed.

End Rejection.

(** C4, as the code has it: [sign] raises the key error of the package
    ([MalformedPointError]) when the private key is not 32 bytes long or
    its number is 0 or at least the order; for a key that is accepted it
    raises the digest error ([BadDigestError]) when the commitment is
    longer than 32 bytes, once the package has generated its nonce [k];
    in both cases the outcome carries no bytes.  The two definitions of
    [sign] behave alike. *)
Theorem sign_rejects (budget : nat) (randrange : Z -> Z)
    (private_key commitment : bytes) :
  (~ valid_private_key private_key ->
   Ex3Signatures.sign budget randrange private_key commitment = Raise MalformedPointError /\
   Ex4WitnessData.sign budget randrange private_key commitment = Raise MalformedPointError) /\
  (forall sk k, from_string private_key SECP256k1 = Ok sk ->
   generate_k budget (order SECP256k1) (sk_secexp sk) sha256 commitment 0 [] = Ok k ->
   32 < len commitment ->
   Ex3Signatures.sign budget randrange private_key commitment = Raise BadDigestError /\
   Ex4WitnessData.sign budget randrange private_key commitment = Raise BadDigestError).
Proof.
  rewrite ex3_sign_eq. split.
  - intros Hbad. split; apply sign_invalid_key; exact Hbad.
  - intros sk k Hkey Hgen Hlong.
    split; exact (sign_long_commitment_exact budget randrange _ _ sk k Hkey Hgen Hlong).
Qed.

Lemma sign_rejects_witness :
  (~ valid_private_key key_31 /\
   Ex3Signatures.sign 1 entropy_zero key_31 commitment_test = Raise MalformedPointError /\
   Ex4WitnessData.sign 1 entropy_zero key_31 commitment_test = Raise MalformedPointError) /\
  (from_string key_one SECP256k1 = Ok sk_one /\
   generate_k 1 (order SECP256k1) (sk_secexp sk_one) sha256 commitment_33 0 [] =
     Ok nonce_33 /\
   32 < len commitment_33 /\
   Ex3Signatures.sign 1 entropy_zero key_one commitment_33 = Raise BadDigestError /\
   Ex4WitnessData.sign 1 entropy_zero key_one commitment_33 = Raise BadDigestError).
Proof.
  split.
  - assert (Hbad : ~ valid_private_key key_31).
    { intros [Hlen _]. vm_compute in Hlen. discriminate Hlen. }
    exact (conj Hbad
      (proj1 (sign_rejects 1 entropy_zero key_31 commitment_test) Hbad)).
  - assert (Hlong : 32 < len commitment_33) by (vm_compute; reflexivity).
    exact (conj from_string_key_one (conj generate_k_33 (conj Hlong
      (proj2 (sign_rejects 1 entropy_zero key_one commitment_33)
         sk_one nonce_33 from_string_key_one generate_k_33 Hlong)))).
Defined.

(** C4 as the specification words it fails: a commitment of 31 bytes is
    not rejected; both definitions of [sign] return a signature for it. *)
Lemma sign_accepts_31_byte_commitment :
  valid_private_key key_one /\
  len commitment_31 = 31 /\
  Ex3Signatures.sign 1 entropy_zero key_one commitment_31 = Ok blob_31 /\
  Ex4WitnessData.sign 1 entropy_zero key_one commitment_31 = Ok blob_31 /\
  forall e, Ex4WitnessData.sign 1 entropy_zero key_one commitment_31 <> Raise e.
Proof.
  split; [exact key_one_valid|]. split; [vm_compute; reflexivity|].
  split; [exact sign_31_vector_ex3|]. split; [exact sign_31_vector|].
  intros e. rewrite sign_31_vector. discriminate.
Qed.

(** * Further properties of the two files *)

(** ** [int_to_little_endian] and [dsha256] *)

Section Helpers.

Lemma le_digits_low (n : nat) (v : Z) :
  le_digits n (v mod 256 ^ Z.of_nat n) = le_digits n v.
Proof.
  revert v. induction n as [|n IH]; intros v; [reflexivity|].
  cbn [le_digits].
  assert (Hp : 0 < 256 ^ Z.of_nat n) by (apply Z.pow_pos_nonneg; lia).
  rewrite Nat2Z.inj_succ, Z.pow_succ_r by lia.
  rewrite Z.rem_mul_r by lia.
  f_equal.
  - f_equal. rewrite (Z.mul_comm 256), Z.mod_add by lia. apply Z.mod_mod. lia.
  - rewrite (Z.mul_comm 256), Z.div_add by lia.
    rewrite (Z.div_small (v mod 256)) by (apply Z.mod_pos_bound; lia).
    apply IH.
Qed.

Lemma le_digits_app (n m : nat) (v : Z) :
  le_digits (n + m) v = le_digits n v ++ le_digits m (v / 256 ^ Z.of_nat n).
Proof.
  revert v. induction n as [|n IH]; intros v.
  - cbn. rewrite Z.div_1_r. reflexivity.
  - cbn [Nat.add le_digits app]. rewrite IH. f_equal. f_equal. f_equal.
    rewrite Nat2Z.inj_succ, Z.pow_succ_r, Z.div_div by lia.
    reflexivity.
Qed.

Lemma round_length (s : list Z) (kw : Z * Z) :
  length s = 8%nat -> length (Hashlib.round s kw) = 8%nat.
Proof.
  intros Hs.
  do 8 (destruct s as [|? s]; [discriminate Hs|]).
  destruct s; [reflexivity | discriminate Hs].
Qed.

Lemma fold_round_length (kws : list (Z * Z)) (s : list Z) :
  length s = 8%nat -> length (fold_left Hashlib.round kws s) = 8%nat.
Proof.
  revert s. induction kws as [|kw kws IH]; intros s Hs; [exact Hs|].
  cbn [fold_left]. apply IH, round_length, Hs.
Qed.

Lemma compress_length (h : list Z) (block : bytes) :
  length h = 8%nat -> length (Hashlib.compress h block) = 8%nat.
Proof.
  intros Hh. unfold Hashlib.compress.
  rewrite length_map, length_combine, fold_round_length by exact Hh.
  rewrite Hh. reflexivity.
Qed.

Lemma blocks_length (n : nat) (h : list Z) (b : bytes) :
  length h = 8%nat -> length (Hashlib.blocks n h b) = 8%nat.
Proof.
  revert h b. induction n as [|n IH]; intros h b Hh; [exact Hh|].
  cbn [Hashlib.blocks]. apply IH, compress_length, Hh.
Qed.

Lemma flat_map_length_4 (ws : list Z) :
  length (flat_map (fun w => rev (le_digits 4 w)) ws) = (4 * length ws)%nat.
Proof.
  induction ws as [|w ws IH]; [reflexivity|].
  cbn [flat_map]. rewrite length_app, length_rev, le_digits_length, IH.
  cbn [length]. lia.
Qed.

Lemma sha256_digest_length (msg : bytes) : len (Hashlib.sha256_digest msg) = 32.
Proof.
  unfold Hashlib.sha256_digest, len.
  rewrite flat_map_length_4, blocks_length by reflexivity. reflexivity.
Qed.

End Helpers.

(** X1: for a length [n + m] that a [bytes] object can have and that
    the allocator grants, the bytes of a value on [n + m] bytes are the
    bytes of its remainder modulo [256 ^ n] on [n] bytes, followed by the
    bytes of its quotient on [m] bytes; the three calls all return. *)
Theorem int_to_little_endian_split (memory value n m : Z) :
  0 <= n -> 0 <= m ->
  n + m <= bytes_size_max -> n + m <= memory ->
  0 <= value < 256 ^ (n + m) ->
  exists lo hi,
    Ex4WitnessData.int_to_little_endian memory (value mod 256 ^ n) n = Ok lo /\
    Ex4WitnessData.int_to_little_endian memory (value / 256 ^ n) m = Ok hi /\
    Ex4WitnessData.int_to_little_endian memory value (n + m) = Ok (lo ++ hi).
Proof.
  intros Hn Hm Hmax Hmem Hv.
  assert (Hpn : 0 < 256 ^ n) by (apply Z.pow_pos_nonneg; lia).
  assert (Hpm : 0 < 256 ^ m) by (apply Z.pow_pos_nonneg; lia).
  rewrite Z.pow_add_r in Hv by lia.
  pose proof (Z.mod_pos_bound value (256 ^ n) Hpn) as Hlo.
  assert (Hhi : 0 <= value / 256 ^ n < 256 ^ m).
  { split; [apply Z.div_pos; lia|].
    apply Z.div_lt_upper_bound; lia. }
  exists (le_digits (Z.to_nat n) value),
         (le_digits (Z.to_nat m) (value / 256 ^ n)).
  unfold Ex4WitnessData.int_to_little_endian, to_bytes.
  unfold bytes_size_max, ssize_t_max in *.
  split; [|split].
  - destruct (Z.ltb_spec n (- (2 ^ 63 - 1) - 1)); [lia|].
    destruct (Z.ltb_spec (2 ^ 63 - 1) n); [lia|]. cbn [orb].
    destruct (Z.ltb_spec n 0); [lia|].
    destruct (Z.ltb_spec (2 ^ 63 - 1 - 33) n); [lia|].
    destruct (Z.ltb_spec memory n); [lia|].
    destruct (Z.ltb_spec (value mod 256 ^ n) 0); [lia|].
    destruct (Z.leb_spec (256 ^ n) (value mod 256 ^ n)); [lia|].
    rewrite <- (le_digits_low (Z.to_nat n) value), Z2Nat.id by lia. reflexivity.
  - destruct (Z.ltb_spec m (- (2 ^ 63 - 1) - 1)); [lia|].
    destruct (Z.ltb_spec (2 ^ 63 - 1) m); [lia|]. cbn [orb].
    destruct (Z.ltb_spec m 0); [lia|].
    destruct (Z.ltb_spec (2 ^ 63 - 1 - 33) m); [lia|].
    destruct (Z.ltb_spec memory m); [lia|].
    destruct (Z.ltb_spec (value / 256 ^ n) 0); [lia|].
    destruct (Z.leb_spec (256 ^ m) (value / 256 ^ n)); [lia|]. reflexivity.
  - destruct (Z.ltb_spec (n + m) (- (2 ^ 63 - 1) - 1)); [lia|].
    destruct (Z.ltb_spec (2 ^ 63 - 1) (n + m)); [lia|]. cbn [orb].
    destruct (Z.ltb_spec (n + m) 0); [lia|].
    destruct (Z.ltb_spec (2 ^ 63 - 1 - 33) (n + m)); [lia|].
    destruct (Z.ltb_spec memory (n + m)); [lia|].
    destruct (Z.ltb_spec value 0); [lia|].
    rewrite Z.pow_add_r by lia.
    destruct (Z.leb_spec (256 ^ n * 256 ^ m) value); [lia|].
    rewrite Z2Nat.inj_add, le_digits_app, Z2Nat.id by lia. reflexivity.
Qed.

Lemma int_to_little_endian_split_witness :
  0 <= 2 /\ 0 <= 2 /\
  2 + 2 <= bytes_size_max /\ 2 + 2 <= 1024 /\
  0 <= 0x01020304 < 256 ^ (2 + 2) /\
  exists lo hi,
    Ex4WitnessData.int_to_little_endian 1024 (0x01020304 mod 256 ^ 2) 2 = Ok lo /\
    Ex4WitnessData.int_to_little_endian 1024 (0x01020304 / 256 ^ 2) 2 = Ok hi /\
    Ex4WitnessData.int_to_little_endian 1024 0x01020304 (2 + 2) = Ok (lo ++ hi).
Proof.
  assert (H0 : 0 <= 2) by lia.
  assert (Hmax : 2 + 2 <= bytes_size_max) by (unfold bytes_size_max, ssize_t_max; lia).
  assert (Hmem : 2 + 2 <= 1024) by lia.
  assert (Hv : 0 <= 0x01020304 < 256 ^ (2 + 2)) by lia.
  exact (conj H0 (conj H0 (conj Hmax (conj Hmem (conj Hv
    (int_to_little_endian_split 1024 0x01020304 2 2 H0 H0 Hmax Hmem Hv)))))).
Defined.

(** X2: [dsha256] returns 32 bytes on every input, the empty one
    included. *)
Theorem dsha256_length (data : bytes) : len (Ex4WitnessData.dsha256 data) = 32.
Proof.
  unfold Ex4WitnessData.dsha256. apply sha256_digest_length.
Qed.

(** ** [sign] *)

Section SignerEdges.

(** Nonce generation never returns on the empty digest. *)
Lemma generate_k_empty (b : nat) (order secexp : Z) (h : hashfunc)
    (retry_gen : Z) (extra : bytes) (k : Z) :
  generate_k b order secexp h [] retry_gen extra <> Ok k.
Proof.
  unfold generate_k.
  destruct (number_to_string secexp order) as [bx0| |]; cbn [bind];
    [|discriminate|discriminate].
  unfold bits2octets, bits2int. cbn [string_to_number bind]. discriminate.
Qed.

Lemma sign_digest_retry_nonempty (n b : nat) (rnd : Z -> Z) (sk : SigningKey)
    (d : bytes) (h : hashfunc) (retry_gen : Z) (rso : Z * Z * Z) :
  sign_digest_retry n b rnd sk d h retry_gen = Ok rso -> d <> [].
Proof.
  intros Hraw ->. destruct n as [|n]; [discriminate Hraw|].
  cbn [sign_digest_retry] in Hraw.
  pose proof (generate_k_empty b (order (sk_curve sk)) (sk_secexp sk) h retry_gen [])
    as Hgen.
  destruct (generate_k b (order (sk_curve sk)) (sk_secexp sk) h [] retry_gen [])
    as [k| |]; cbn [bind] in Hraw;
    [exact (Hgen k eq_refl) | discriminate Hraw | discriminate Hraw].
Qed.

Lemma from_bytes_big_zero_cons (c : bytes) :
  from_bytes_big (x00 :: c) = from_bytes_big c.
Proof. reflexivity. Qed.

Lemma bits2int_zero_cons (c : bytes) (qlen : Z) :
  c <> [] -> (len c + 1) * 8 <= qlen ->
  bits2int (x00 :: c) qlen = bits2int c qlen.
Proof.
  intros Hne Hlen. destruct c as [|d c]; [contradiction|].
  unfold bits2int. rewrite !string_to_number_cons. cbn [bind].
  rewrite from_bytes_big_zero_cons.
  rewrite (len_cons x00).
  destruct (Z.ltb_spec qlen ((1 + len (d :: c)) * 8)); [lia|].
  destruct (Z.ltb_spec qlen (len (d :: c) * 8)); [lia|]. reflexivity.
Qed.

Lemma generate_k_zero_cons (b : nat) (secexp : Z) (h : hashfunc) (c : bytes)
    (retry_gen : Z) (extra : bytes) :
  c <> [] -> len c < 32 ->
  generate_k b (order SECP256k1) secexp h (x00 :: c) retry_gen extra =
  generate_k b (order SECP256k1) secexp h c retry_gen extra.
Proof.
  intros Hne Hlen. destruct order_lengths as (_ & Hbits).
  unfold generate_k, bits2octets. rewrite Hbits.
  rewrite bits2int_zero_cons by (assumption || lia). reflexivity.
Qed.

Lemma sign_digest_zero_cons {A : Type} (rnd : Z -> Z) (sk : SigningKey) (c : bytes)
    (enc : Z -> Z -> Z -> result A) (k : option Z) :
  sk_curve sk = SECP256k1 -> c <> [] -> len c < 32 ->
  sign_digest rnd sk (x00 :: c) enc k false = sign_digest rnd sk c enc k false.
Proof.
  intros Hcurve Hne Hlen. destruct c as [|d c]; [contradiction|].
  unfold sign_digest, truncate_and_convert_digest. cbn [negb].
  rewrite Hcurve, baselen_SECP256k1, (len_cons x00).
  destruct (Z.ltb_spec 32 (1 + len (d :: c))); [lia|].
  destruct (Z.ltb_spec 32 (len (d :: c))); [lia|].
  cbn [bind]. rewrite !string_to_number_cons, from_bytes_big_zero_cons.
  reflexivity.
Qed.

Lemma sign_digest_retry_zero_cons (n b : nat) (rnd : Z -> Z) (sk : SigningKey)
    (c : bytes) (h : hashfunc) (retry_gen : Z) :
  sk_curve sk = SECP256k1 -> c <> [] -> len c < 32 ->
  sign_digest_retry n b rnd sk (x00 :: c) h retry_gen =
  sign_digest_retry n b rnd sk c h retry_gen.
Proof.
  intros Hcurve Hne Hlen. revert retry_gen.
  induction n as [|n IH]; intros retry_gen; [reflexivity|].
  cbn [sign_digest_retry]. rewrite Hcurve.
  rewrite generate_k_zero_cons by assumption.
  destruct (generate_k b (order SECP256k1) (sk_secexp sk) h c retry_gen [])
    as [k| |]; cbn [bind]; [|reflexivity|reflexivity].
  rewrite sign_digest_zero_cons by assumption.
  destruct (sign_digest rnd sk c simple_r_s (Some k) false) as [rso|e|];
    [reflexivity| |reflexivity].
  destruct e; try reflexivity. apply IH.
Qed.

(** The shape of the DER bytes of a signature with numbers in range: the
    sequence tag, the length of what follows in one byte, then between 6
    and 70 bytes. *)
Lemma sigencode_der_shape (r s order : Z) (der : bytes) :
  1 <= r < 2 ^ 256 -> 1 <= s < 2 ^ 256 ->
  sigencode_der r s order = Ok der ->
  exists body, der = x30 :: byte_of_Z (len body) :: body /\ 6 <= len body <= 70.
Proof.
  intros Hr Hs Henc. unfold sigencode_der in Henc.
  destruct (encode_integer r) as [er| |] eqn:Her; [|discriminate Henc ..].
  destruct (encode_integer s) as [es| |] eqn:Hes; [|discriminate Henc ..].
  cbn [bind] in Henc.
  pose proof (encode_integer_len r er ltac:(lia) Her).
  pose proof (encode_integer_len s es ltac:(lia) Hes).
  unfold encode_sequence in Henc.
  rewrite encode_length_short in Henc by lia. cbn [bind app] in Henc.
  injection Henc as <-. exists (er ++ es).
  rewrite len_app. split; [reflexivity | lia].
Qed.

Lemma sign_raises_on_empty (budget : nat) (rnd : Z -> Z)
    (private_key : bytes) (sk : SigningKey) :
  from_string private_key SECP256k1 = Ok sk ->
  Ex4WitnessData.sign (S budget) rnd private_key [] = Raise ValueError.
Proof.
  intros Hkey. unfold Ex4WitnessData.sign. rewrite Hkey. cbn [bind].
  apply from_string_inv in Hkey.
  destruct Hkey as (_ & Hrange & Hcurve & Hsec & _). rewrite <- Hsec in Hrange.
  destruct order_facts as (_ & Hlt & _). destruct order_lengths as (Holen & _).
  cbn [Ex4WitnessData.sign_loop].
  unfold Ex4WitnessData.sign_body, sign_digest_deterministic.
  cbn [sign_digest_retry]. rewrite Hcurve. unfold generate_k.
  rewrite (number_to_string_256 (sk_secexp sk) _ Holen) by lia. cbn [bind].
  unfold bits2octets, bits2int. cbn [string_to_number bind]. reflexivity.
Qed.

Lemma sign_len (budget : nat) (rnd : Z -> Z) (private_key c blob : bytes) :
  Ex4WitnessData.sign budget rnd private_key c = Ok blob -> 9 <= len blob <= 73.
Proof.
  intros Hsign.
  destruct (sign_inv _ _ _ _ _ Hsign) as (r & s & der & Hr & Hs & Henc & _ & _ & ->).
  destruct order_facts as (Hpos & Hlt & Hodd).
  destruct (sigencode_der_shape r s _ der ltac:(lia) ltac:(lia) Henc)
    as (body & -> & Hbody).
  rewrite len_app. change (len [x01]) with 1. rewrite !len_cons. lia.
Qed.

End SignerEdges.

(** X3: [sign] returns a blob only for a valid private key and a
    commitment of 1 to 32 bytes. *)
Theorem sign_returns_only_on_checked_input (budget : nat) (randrange : Z -> Z)
    (private_key commitment blob : bytes) :
  Ex4WitnessData.sign budget randrange private_key commitment = Ok blob ->
  valid_private_key private_key /\ 1 <= len commitment <= 32.
Proof.
  unfold Ex4WitnessData.sign.
  destruct (from_string private_key SECP256k1) as [sk| |] eqn:Hkey;
    cbn [bind]; [|discriminate|discriminate].
  apply from_string_inv in Hkey.
  destruct Hkey as (Hlen & Hrange & Hcurve & _).
  rewrite baselen_SECP256k1 in Hlen.
  intros Hloop. apply sign_loop_inv in Hloop; [|exact Hcurve].
  apply sign_body_inv in Hloop; [|exact Hcurve].
  destruct Hloop as (_ & r & s & der & _ & _ & Hraw & _).
  destruct order_facts as (Hpos & _).
  pose proof (sign_digest_retry_nonempty _ _ _ _ _ _ _ _ Hraw) as Hne.
  apply sign_digest_retry_range in Hraw; [|rewrite Hcurve; exact Hpos].
  destruct Hraw as (_ & _ & _ & Hdlen).
  rewrite Hcurve, baselen_SECP256k1 in Hdlen.
  split; [split; assumption|]. split; [|exact Hdlen].
  destruct commitment as [|d c]; [contradiction|].
  rewrite len_cons. pose proof (len_nonneg c). lia.
Qed.

Lemma sign_returns_only_on_checked_input_witness :
  Ex4WitnessData.sign 1 entropy_zero key_one commitment_31 = Ok blob_31 /\
  valid_private_key key_one /\ 1 <= len commitment_31 <= 32.
Proof.
  exact (conj sign_31_vector
    (sign_returns_only_on_checked_input 1 entropy_zero key_one commitment_31 blob_31
       sign_31_vector)).
Defined.

(** X4: on the empty commitment, [sign] raises [ValueError] for every key
    that is accepted: the package reads the digest as a number before it
    looks at its length. *)
Theorem sign_empty_commitment (budget : nat) (randrange : Z -> Z)
    (private_key : bytes) (sk : SigningKey) :
  from_string private_key SECP256k1 = Ok sk ->
  Ex4WitnessData.sign (S budget) randrange private_key [] = Raise ValueError.
Proof.
  intros Hkey.
  exact (sign_raises_on_empty budget randrange private_key sk Hkey).
Qed.

Lemma sign_empty_commitment_witness :
  from_string key_one SECP256k1 = Ok sk_one /\
  Ex4WitnessData.sign 1 entropy_zero key_one [] = Raise ValueError.
Proof.
  exact (conj from_string_key_one
    (sign_empty_commitment 0 entropy_zero key_one sk_one from_string_key_one)).
Defined.

(** X5: a commitment shorter than 32 bytes is signed as the number it
    spells: a zero byte put in front of it changes nothing in the outcome
    of [sign]. *)
Theorem sign_zero_padded_commitment (budget : nat) (randrange : Z -> Z)
    (private_key commitment : bytes) :
  commitment <> [] -> len commitment < 32 ->
  Ex4WitnessData.sign budget randrange private_key (x00 :: commitment) =
  Ex4WitnessData.sign budget randrange private_key commitment.
Proof.
  intros Hne Hlen. unfold Ex4WitnessData.sign.
  destruct (from_string private_key SECP256k1) as [sk| |] eqn:Hkey;
    cbn [bind]; [|reflexivity|reflexivity].
  apply from_string_inv in Hkey. destruct Hkey as (_ & _ & Hcurve & _).
  generalize budget at 1 3 as n.
  induction n as [|n IH]; [reflexivity|].
  cbn [Ex4WitnessData.sign_loop].
  assert (Hbody : Ex4WitnessData.sign_body budget randrange sk (x00 :: commitment) =
                  Ex4WitnessData.sign_body budget randrange sk commitment).
  { unfold Ex4WitnessData.sign_body, sign_digest_deterministic.
    rewrite sign_digest_retry_zero_cons by assumption. reflexivity. }
  rewrite Hbody.
  destruct (Ex4WitnessData.sign_body budget randrange sk commitment)
    as [[out exit]| |]; cbn [bind]; [|reflexivity|reflexivity].
  destruct exit; [reflexivity | exact IH].
Qed.

Lemma sign_zero_padded_commitment_witness :
  commitment_31 <> [] /\ len commitment_31 < 32 /\
  Ex4WitnessData.sign 1 entropy_zero key_one (x00 :: commitment_31) =
  Ex4WitnessData.sign 1 entropy_zero key_one commitment_31.
Proof.
  assert (Hne : commitment_31 <> []).
  { intros Heq. apply (f_equal (@length byte)) in Heq.
    vm_compute in Heq. discriminate Heq. }
  assert (Hlen : len commitment_31 < 32) by (vm_compute; reflexivity).
  exact (conj Hne (conj Hlen
    (sign_zero_padded_commitment 1 entropy_zero key_one commitment_31 Hne Hlen))).
Defined.

(** X6: a blob returned by [sign] has between 9 and 73 bytes; it begins
    with the DER sequence tag [0x30], its second byte is its own length
    minus 3, and the pair it encodes has [1 <= r < order] and
    [1 <= s <= order / 2]. *)
Theorem sign_blob_shape (budget : nat) (randrange : Z -> Z)
    (private_key commitment blob : bytes) :
  Ex4WitnessData.sign budget randrange private_key commitment = Ok blob ->
  9 <= len blob <= 73 /\
  nth 0 blob x00 = x30 /\
  byte_to_Z (nth 1 blob x00) = len blob - 3 /\
  exists r s,
    sigdecode_der (removelast blob) (order SECP256k1) = Ok (r, s) /\
    1 <= r < order SECP256k1 /\ 1 <= s <= order SECP256k1 / 2.
Proof.
  intros Hsign.
  destruct (sign_inv _ _ _ _ _ Hsign) as (r & s & der & Hr & Hs & Henc & Hdec & _ & ->).
  destruct order_facts as (Hpos & Hlt & Hodd).
  destruct (sigencode_der_shape r s _ der ltac:(lia) ltac:(lia) Henc)
    as (body & -> & Hbody).
  cbn [app nth]. rewrite !len_cons, len_app. change (len [x01]) with 1.
  split; [lia|]. split; [reflexivity|].
  split; [rewrite byte_to_of_small by lia; lia|].
  exists r, s.
  change (x30 :: byte_of_Z (len body) :: body ++ [x01])
    with ((x30 :: byte_of_Z (len body) :: body) ++ [x01]).
  rewrite removelast_last. split; [exact Hdec|]. split; [exact Hr | exact Hs].
Qed.

Lemma sign_blob_shape_witness :
  Ex4WitnessData.sign 1 entropy_zero key_one commitment_satoshi = Ok blob_satoshi /\
  9 <= len blob_satoshi <= 73 /\
  nth 0 blob_satoshi x00 = x30 /\
  byte_to_Z (nth 1 blob_satoshi x00) = len blob_satoshi - 3 /\
  exists r s,
    sigdecode_der (removelast blob_satoshi) (order SECP256k1) = Ok (r, s) /\
    1 <= r < order SECP256k1 /\ 1 <= s <= order SECP256k1 / 2.
Proof.
  exact (conj sign_satoshi_vector
    (sign_blob_shape 1 entropy_zero key_one commitment_satoshi blob_satoshi
       sign_satoshi_vector)).
Defined.

(** X7: [sign] adds no failure of its own.  Whenever the package returns
    a raw signature [(r, s)] for an accepted key, [sign] returns: [r] is
    kept, [s] is replaced by [order - s] exactly when it is above half the
    order, the pair is DER-encoded and [0x01] is appended. *)
Theorem sign_returns_when_package_signs (budget : nat) (randrange : Z -> Z)
    (private_key commitment : bytes) (sk : SigningKey) (r s o : Z) :
  from_string private_key SECP256k1 = Ok sk ->
  sign_digest_retry budget budget randrange sk commitment sha256 0 = Ok (r, s, o) ->
  exists der,
    sigencode_der r (if order SECP256k1 / 2 <? s then order SECP256k1 - s else s)
      (order SECP256k1) = Ok der /\
    Ex4WitnessData.sign budget randrange private_key commitment = Ok (der ++ [x01]).
Proof.
  intros Hkey Hraw.
  exact (sign_complete budget randrange private_key commitment sk r s o Hkey Hraw).
Qed.

Lemma sign_returns_when_package_signs_witness :
  from_string key_one SECP256k1 = Ok sk_one /\
  sign_digest_retry 1 1 entropy_zero sk_one commitment_satoshi sha256 0 =
    Ok (raw_r_satoshi, raw_s_satoshi, order SECP256k1) /\
  exists der,
    sigencode_der raw_r_satoshi
      (if order SECP256k1 / 2 <? raw_s_satoshi
       then order SECP256k1 - raw_s_satoshi else raw_s_satoshi)
      (order SECP256k1) = Ok der /\
    Ex4WitnessData.sign 1 entropy_zero key_one commitment_satoshi = Ok (der ++ [x01]).
Proof.
  exact (conj from_string_key_one (conj (proj1 raw_satoshi_high_s)
    (sign_returns_when_package_signs 1 entropy_zero key_one commitment_satoshi
       sk_one raw_r_satoshi raw_s_satoshi (order SECP256k1)
       from_string_key_one (proj1 raw_satoshi_high_s)))).
Defined.

(** ** [get_pub_from_priv] and [get_p2wpkh_witness] *)

Section WitnessEdges.

Lemma land_1_odd (y : Z) : (Z.land y 1 =? 0) = negb (Z.odd y).
Proof.
  change 1 with (Z.ones 1) at 1. rewrite Z.land_ones by lia.
  change (2 ^ 1) with 2. rewrite Zmod_odd.
  destruct (Z.odd y); reflexivity.
Qed.

Lemma get_pub_from_priv_invalid (priv : bytes) :
  ~ valid_private_key priv ->
  Ex4WitnessData.get_pub_from_priv priv = Raise MalformedPointError.
Proof.
  intros Hbad. unfold Ex4WitnessData.get_pub_from_priv.
  rewrite from_string_invalid; [reflexivity|].
  rewrite baselen_SECP256k1. exact Hbad.
Qed.

(** What a returned witness is made of. *)
Lemma get_p2wpkh_witness_inv (b : nat) (rnd : Z -> Z) (priv msg w : bytes) :
  Ex4WitnessData.get_p2wpkh_witness b rnd priv msg = Ok w ->
  exists sig pub,
    Ex4WitnessData.sign b rnd priv msg = Ok sig /\
    Ex4WitnessData.get_pub_from_priv priv = Ok pub /\
    9 <= len sig <= 73 /\ len pub = 33 /\
    w = x02 :: byte_of_Z (len sig) :: sig ++ x21 :: pub.
Proof.
  unfold Ex4WitnessData.get_p2wpkh_witness.
  destruct (Ex4WitnessData.sign b rnd priv msg) as [sig| |] eqn:Hsign;
    cbn [bind]; [|discriminate|discriminate].
  destruct (Ex4WitnessData.get_pub_from_priv priv) as [pub| |] eqn:Hpub;
    cbn [bind]; [|discriminate|discriminate].
  pose proof (sign_len _ _ _ _ _ Hsign) as Hsiglen.
  destruct (get_pub_from_priv_inv _ _ Hpub) as [Hpublen _].
  change (bytes_of_int 2) with (Ok [x02]). cbn [bind].
  unfold bytes_of_int at 1.
  destruct (Z.leb_spec 0 (len sig)); [|lia].
  destruct (Z.ltb_spec (len sig) 256); [|lia]. cbn [andb bind].
  rewrite Hpublen. change (bytes_of_int 33) with (Ok [x21]). cbn [bind].
  intros [= <-]. exists sig, pub.
  split; [reflexivity|]. split; [reflexivity|].
  split; [exact Hsiglen|]. split; [exact Hpublen|].
  reflexivity.
Qed.

End WitnessEdges.

(** X8: [get_pub_from_priv] raises the key error of the package when the
    private key is not 32 bytes long or its number is 0 or at least the
    order, and it returns a public key for no such input. *)
Theorem get_pub_from_priv_key_check (priv : bytes) :
  (~ valid_private_key priv ->
   Ex4WitnessData.get_pub_from_priv priv = Raise MalformedPointError) /\
  (forall pub, Ex4WitnessData.get_pub_from_priv priv = Ok pub ->
   valid_private_key priv).
Proof.
  split; [apply get_pub_from_priv_invalid|].
  intros pub. unfold Ex4WitnessData.get_pub_from_priv.
  destruct (from_string priv SECP256k1) as [sk| |] eqn:Hkey; cbn [bind];
    [|discriminate|discriminate].
  apply from_string_inv in Hkey. destruct Hkey as (Hlen & Hrange & _).
  rewrite baselen_SECP256k1 in Hlen. intros _. split; assumption.
Qed.

Lemma get_pub_from_priv_key_check_witness :
  (~ valid_private_key key_31 /\
   Ex4WitnessData.get_pub_from_priv key_31 = Raise MalformedPointError) /\
  (Ex4WitnessData.get_pub_from_priv key_one = Ok pubkey_one /\
   valid_private_key key_one).
Proof.
  split.
  - assert (Hbad : ~ valid_private_key key_31).
    { intros [Hlen _]. vm_compute in Hlen. discriminate Hlen. }
    exact (conj Hbad (proj1 (get_pub_from_priv_key_check key_31) Hbad)).
  - exact (conj get_pub_from_priv_key_one
      (proj2 (get_pub_from_priv_key_check key_one) pubkey_one
         get_pub_from_priv_key_one)).
Defined.

(** X9: the public point can be read back from the bytes that
    [get_pub_from_priv] returns: the bytes after the first are the
    big-endian [x], below the field prime, and the first byte is [0x03]
    exactly when [y] is odd. *)
Theorem get_pub_from_priv_reads_back (priv pub : bytes) :
  Ex4WitnessData.get_pub_from_priv priv = Ok pub ->
  exists x y,
    generator_mul SECP256k1 (from_bytes_big priv) = Ok (Affine x y) /\
    0 <= x < curve_p SECP256k1 /\
    from_bytes_big (tl pub) = x /\
    (hd x00 pub = x03 <-> Z.odd y = true).
Proof.
  unfold Ex4WitnessData.get_pub_from_priv.
  destruct (from_string priv SECP256k1) as [sk| |] eqn:Hkey; cbn [bind];
    [|discriminate|discriminate].
  apply from_string_inv in Hkey. destruct Hkey as (_ & _ & -> & _ & Hmul).
  unfold to_string_compressed.
  destruct (verifying_key sk) as [|x y]; cbn [bind]; [discriminate|].
  destruct curve_p_facts as (Hp & Hp256 & Hplen).
  pose proof (generator_mul_range _ _ _ _ Hp Hmul) as [Hx _].
  rewrite (number_to_string_256 x _ Hplen) by lia. cbn [bind].
  rewrite land_1_odd.
  assert (Hval : from_bytes_big (rev (le_digits 32 x)) = x).
  { apply from_bytes_big_digits. change (256 ^ Z.of_nat 32) with (2 ^ 256). lia. }
  destruct (Z.odd y) eqn:Hodd; cbn [negb app]; intros [= <-]; exists x, y;
    cbn [hd tl]; rewrite Hodd;
    (split; [exact Hmul|]); (split; [exact Hx|]); (split; [exact Hval|]);
    split; intros H; (reflexivity || discriminate H).
Qed.

Lemma get_pub_from_priv_reads_back_witness :
  Ex4WitnessData.get_pub_from_priv key_one = Ok pubkey_one /\
  exists x y,
    generator_mul SECP256k1 (from_bytes_big key_one) = Ok (Affine x y) /\
    0 <= x < curve_p SECP256k1 /\
    from_bytes_big (tl pubkey_one) = x /\
    (hd x00 pubkey_one = x03 <-> Z.odd y = true).
Proof.
  exact (conj get_pub_from_priv_key_one
    (get_pub_from_priv_reads_back key_one pubkey_one get_pub_from_priv_key_one)).
Defined.

(** X10: a witness that [get_p2wpkh_witness] returns can be taken apart
    again.  With [n] the value of its second byte: the first byte is
    [0x02], the next [n] bytes after the second are the blob of [sign],
    the byte after them is [0x21], the rest is the public key of
    [get_pub_from_priv], and the whole has [n + 36] bytes, between 45 and
    109. *)
Theorem get_p2wpkh_witness_reads_back (budget : nat) (randrange : Z -> Z)
    (priv msg w : bytes) :
  Ex4WitnessData.get_p2wpkh_witness budget randrange priv msg = Ok w ->
  let n := byte_to_Z (nth 1 w x00) in
  nth 0 w x00 = x02 /\
  Ex4WitnessData.sign budget randrange priv msg = Ok (slice_to n (slice_from 2 w)) /\
  nth (Z.to_nat (2 + n)) w x00 = x21 /\
  Ex4WitnessData.get_pub_from_priv priv = Ok (slice_from (3 + n) w) /\
  len w = n + 36 /\
  45 <= len w <= 109.
Proof.
  intros Hw.
  destruct (get_p2wpkh_witness_inv _ _ _ _ _ Hw)
    as (sig & pub & Hsign & Hpub & Hsiglen & Hpublen & ->).
  cbn [nth]. rewrite byte_to_of_small by lia. cbv zeta.
  split; [reflexivity|]. split.
  { change (slice_from 2 (x02 :: byte_of_Z (len sig) :: sig ++ x21 :: pub))
      with (sig ++ x21 :: pub).
    rewrite slice_to_app. exact Hsign. }
  split.
  { replace (Z.to_nat (2 + len sig)) with (length (x02 :: byte_of_Z (len sig) :: sig))
      by (unfold len; cbn [length]; lia).
    change (x02 :: byte_of_Z (len sig) :: sig ++ x21 :: pub)
      with ((x02 :: byte_of_Z (len sig) :: sig) ++ x21 :: pub).
    apply nth_middle. }
  split.
  { replace (x02 :: byte_of_Z (len sig) :: sig ++ x21 :: pub)
      with ((x02 :: byte_of_Z (len sig) :: sig ++ [x21]) ++ pub)
      by (cbn [app]; rewrite <- app_assoc; reflexivity).
    replace (3 + len sig) with (len (x02 :: byte_of_Z (len sig) :: sig ++ [x21]))
      by (rewrite !len_cons, len_app; change (len [x21]) with 1; lia).
    rewrite slice_from_app. exact Hpub. }
  rewrite !len_cons, len_app, len_cons, Hpublen. lia.
Qed.

Lemma get_p2wpkh_witness_reads_back_witness :
  Ex4WitnessData.get_p2wpkh_witness 1 entropy_zero key_one commitment_test =
    Ok (x02 :: byte_of_Z (len blob_test) :: blob_test ++ x21 :: pubkey_one) /\
  let w := x02 :: byte_of_Z (len blob_test) :: blob_test ++ x21 :: pubkey_one in
  let n := byte_to_Z (nth 1 w x00) in
  nth 0 w x00 = x02 /\
  Ex4WitnessData.sign 1 entropy_zero key_one commitment_test =
    Ok (slice_to n (slice_from 2 w)) /\
  nth (Z.to_nat (2 + n)) w x00 = x21 /\
  Ex4WitnessData.get_pub_from_priv key_one = Ok (slice_from (3 + n) w) /\
  len w = n + 36 /\
  45 <= len w <= 109.
Proof.
  assert (Hw : Ex4WitnessData.get_p2wpkh_witness 1 entropy_zero key_one commitment_test =
               Ok (x02 :: byte_of_Z (len blob_test) :: blob_test ++ x21 :: pubkey_one)).
  { unfold Ex4WitnessData.get_p2wpkh_witness.
    rewrite sign_test_vector, get_pub_from_priv_key_one. reflexivity. }
  exact (conj Hw
    (get_p2wpkh_witness_reads_back 1 entropy_zero key_one commitment_test _ Hw)).
Defined.

(** X11: [get_p2wpkh_witness] fails as [sign] does.  It raises the key
    error for a private key that is not valid; for a key that is accepted
    it raises the digest error on a message longer than 32 bytes, once the
    package has generated its nonce [k], and [ValueError] on the empty
    message. *)
Theorem get_p2wpkh_witness_rejects (budget : nat) (randrange : Z -> Z)
    (priv msg : bytes) :
  (~ valid_private_key priv ->
   Ex4WitnessData.get_p2wpkh_witness budget randrange priv msg =
     Raise MalformedPointError) /\
  (forall sk k, from_string priv SECP256k1 = Ok sk ->
   generate_k budget (order SECP256k1) (sk_secexp sk) sha256 msg 0 [] = Ok k ->
   32 < len msg ->
   Ex4WitnessData.get_p2wpkh_witness budget randrange priv msg = Raise BadDigestError) /\
  (forall sk, from_string priv SECP256k1 = Ok sk -> msg = [] ->
   Ex4WitnessData.get_p2wpkh_witness (S budget) randrange priv msg = Raise ValueError).
Proof.
  unfold Ex4WitnessData.get_p2wpkh_witness. split; [|split].
  - intros Hbad. rewrite sign_invalid_key by exact Hbad. reflexivity.
  - intros sk k Hkey Hgen Hlong.
    rewrite (sign_long_commitment_exact budget randrange _ _ sk k Hkey Hgen Hlong).
    reflexivity.
  - intros sk Hkey ->. rewrite (sign_raises_on_empty _ _ _ _ Hkey). reflexivity.
Qed.

Lemma get_p2wpkh_witness_rejects_witness :
  (~ valid_private_key key_31 /\
   Ex4WitnessData.get_p2wpkh_witness 1 entropy_zero key_31 commitment_test =
     Raise MalformedPointError) /\
  (from_string key_one SECP256k1 = Ok sk_one /\
   generate_k 1 (order SECP256k1) (sk_secexp sk_one) sha256 commitment_33 0 [] =
     Ok nonce_33 /\
   32 < len commitment_33 /\
   Ex4WitnessData.get_p2wpkh_witness 1 entropy_zero key_one commitment_33 =
     Raise BadDigestError) /\
  (from_string key_one SECP256k1 = Ok sk_one /\ @nil byte = [] /\
   Ex4WitnessData.get_p2wpkh_witness 1 entropy_zero key_one [] = Raise ValueError).
Proof.
  split; [|split].
  - assert (Hbad : ~ valid_private_key key_31).
    { intros [Hlen _]. vm_compute in Hlen. discriminate Hlen. }
    exact (conj Hbad
      (proj1 (get_p2wpkh_witness_rejects 1 entropy_zero key_31 commitment_test) Hbad)).
  - assert (Hlong : 32 < len commitment_33) by (vm_compute; reflexivity).
    exact (conj from_string_key_one (conj generate_k_33 (conj Hlong
      (proj1 (proj2 (get_p2wpkh_witness_rejects 1 entropy_zero key_one commitment_33))
         sk_one nonce_33 from_string_key_one generate_k_33 Hlong)))).
  - exact (conj from_string_key_one (conj eq_refl
      (proj2 (proj2 (get_p2wpkh_witness_rejects 0 entropy_zero key_one []))
         sk_one from_string_key_one eq_refl))).
Defined.

(** X12: two calls of [get_p2wpkh_witness] on the same key and message
    return the same witness, whatever the random source of the process
    yields in each run and however many loop passes each run is allowed. *)
Theorem get_p2wpkh_witness_deterministic (budget1 budget2 : nat)
    (randrange1 randrange2 : Z -> Z) (priv msg w1 w2 : bytes) :
  Ex4WitnessData.get_p2wpkh_witness budget1 randrange1 priv msg = Ok w1 ->
  Ex4WitnessData.get_p2wpkh_witness budget2 randrange2 priv msg = Ok w2 ->
  w1 = w2.
Proof.
  apply agree_ok. unfold Ex4WitnessData.get_p2wpkh_witness.
  apply agree_bind; [apply sign_agree|]. intros sig. apply agree_refl.
Qed.

Lemma get_p2wpkh_witness_deterministic_witness :
  Ex4WitnessData.get_p2wpkh_witness 1 entropy_zero key_one commitment_test =
    Ok (x02 :: byte_of_Z (len blob_test) :: blob_test ++ x21 :: pubkey_one) /\
  Ex4WitnessData.get_p2wpkh_witness 2 entropy_top key_one commitment_test =
    Ok (x02 :: byte_of_Z (len blob_test) :: blob_test ++ x21 :: pubkey_one) /\
  x02 :: byte_of_Z (len blob_test) :: blob_test ++ x21 :: pubkey_one =
  x02 :: byte_of_Z (len blob_test) :: blob_test ++ x21 :: pubkey_one.
Proof.
  assert (H1 : Ex4WitnessData.get_p2wpkh_witness 1 entropy_zero key_one commitment_test =
               Ok (x02 :: byte_of_Z (len blob_test) :: blob_test ++ x21 :: pubkey_one)).
  { unfold Ex4WitnessData.get_p2wpkh_witness.
    rewrite sign_test_vector, get_pub_from_priv_key_one. reflexivity. }
  assert (H2 : Ex4WitnessData.get_p2wpkh_witness 2 entropy_top key_one commitment_test =
               Ok (x02 :: byte_of_Z (len blob_test) :: blob_test ++ x21 :: pubkey_one)).
  { unfold Ex4WitnessData.get_p2wpkh_witness.
    rewrite sign_test_vector_again, get_pub_from_priv_key_one. reflexivity. }
  exact (conj H1 (conj H2
    (get_p2wpkh_witness_deterministic 1 2 entropy_zero entropy_top key_one
       commitment_test _ _ H1 H2))).
Defined.
